(** * Authentication core of the FastAPI boilerplate

    A shallow embedding of [app/dependencies.py], the two credential
    providers under [app/auth/providers/], the parts of [app/core/config.py]
    they read, and the start-up path of [app/main.py], followed by the
    properties of the principal resolution pipeline.  The second half of
    each part covers the endpoints of [app/api/v1/endpoints/] and the user
    repository they call.

    Conventions of the embedding.
    - A Python [str] is a [string] whose characters are code points below
      256 (what Starlette hands over for a header value, which it decodes as
      Latin-1).  Text with larger code points is outside the model.
    - Instants and durations are integers counting microseconds, the
      resolution of [datetime] and [timedelta]; the clock is an explicit
      argument wherever the code reads it.
    - An exception is a value of [exn]; code that may raise returns a
      [result].  [try]/[except] is the combinator [try_except].
    - PyJWT, itsdangerous, SQLAlchemy with its database driver and the
      [logging] module are not part of the repository: the entry points the
      code calls are parameters of the development.  Those reached while a
      request is served are typed so that they can only raise their own
      exception classes. *)

From Stdlib Require Import ZArith Ascii String DecimalString.
From Stdlib Require DecimalPos.
From stdpp Require Import gmap strings list.

Local Open Scope string_scope.
Local Open Scope Z_scope.

(** ** Python strings *)

Module PyStr.

Definition code (c : ascii) : N := N_of_ascii c.

(** [str.isspace] on one character, restricted to code points below 256:
    TAB..CR, FS..US, SPACE, NEL and NBSP. *)
Definition isspace (c : ascii) : bool :=
  let n := code c in
  ((9 <=? n) && (n <=? 13) || (28 <=? n) && (n <=? 32)
   || (n =? 133) || (n =? 160))%N.

Definition isdigit (c : ascii) : bool :=
  let n := code c in ((48 <=? n) && (n <=? 57))%N.

(** [str.lower] on one character below 256: A-Z, and the Latin-1 capitals
    0xC0..0xDE except the multiplication sign 0xD7. *)
Definition lower_char (c : ascii) : ascii :=
  let n := code c in
  if ((65 <=? n) && (n <=? 90)
      || (192 <=? n) && (n <=? 222) && negb (n =? 215))%N
  then ascii_of_N (n + 32) else c.

Fixpoint lower (s : string) : string :=
  match s with
  | EmptyString => EmptyString
  | String c r => String (lower_char c) (lower r)
  end.

Definition is_empty (s : string) : bool :=
  match s with EmptyString => true | _ => false end.

Definition snoc (s : string) (c : ascii) : string := s +:+ String c "".

(** [s.split()] with no argument: maximal runs of non-space characters.
    [cur] is the run being read. *)
Fixpoint split_ws_from (cur s : string) : list string :=
  match s with
  | EmptyString => if is_empty cur then [] else [cur]
  | String c r =>
      if isspace c
      then (if is_empty cur then split_ws_from "" r
            else cur :: split_ws_from "" r)
      else split_ws_from (snoc cur c) r
  end.

Definition split_ws (s : string) : list string := split_ws_from "" s.

(** [s.partition(sep)] for a one-character separator: the text before the
    first occurrence and the text after it, or [None] when [sep] does not
    occur. *)
Fixpoint cut_first (sep : ascii) (s : string) : option (string * string) :=
  match s with
  | EmptyString => None
  | String c r =>
      if Ascii.eqb c sep then Some ("", r)
      else match cut_first sep r with
           | Some (a, b) => Some (String c a, b)
           | None => None
           end
  end.

(** [s.split(sep, 1)]: at most one split, at the first separator. *)
Definition split1 (sep : ascii) (s : string) : list string :=
  match cut_first sep s with
  | Some (a, b) => [a; b]
  | None => [s]
  end.

Fixpoint occurs (c : ascii) (s : string) : bool :=
  match s with
  | EmptyString => false
  | String d r => Ascii.eqb d c || occurs c r
  end.

Fixpoint rev_onto (s acc : string) : string :=
  match s with
  | EmptyString => acc
  | String c r => rev_onto r (String c acc)
  end.

Definition rev (s : string) : string := rev_onto s "".

(** [str(n)] for an [int]. *)
Definition of_Z (n : Z) : string := NilZero.string_of_int (Z.to_int n).

End PyStr.

(** ** Python values, dictionaries and exceptions *)

(** The JSON-compatible part of [Any], plus [datetime] (which the bearer
    provider stores under ["exp"] before encoding).  Floats are left out. *)
#[warnings="-register-all"] Inductive value : Type :=
| VNone
| VBool (b : bool)
| VInt (n : Z)
| VStr (s : string)
| VDatetime (us : Z)
| VList (items : list value)
| VDict (entries : list (string * value)).

(** A [dict] with string keys, in insertion order, one entry per key. *)
Definition pydict : Type := list (string * value).

Module Dict.

Fixpoint get (k : string) (d : pydict) : option value :=
  match d with
  | [] => None
  | (k', v) :: r => if String.eqb k' k then Some v else get k r
  end.

(** [d[k] = v]: an existing key keeps its position, a new one goes last. *)
Fixpoint set (k : string) (v : value) (d : pydict) : pydict :=
  match d with
  | [] => [(k, v)]
  | (k', v') :: r =>
      if String.eqb k' k then (k', v) :: r else (k', v') :: set k v r
  end.

(** [d.update(other)]. *)
Definition update (other d : pydict) : pydict :=
  fold_left (fun acc kv => set (fst kv) (snd kv) acc) other d.

Definition keys (d : pydict) : list string := map fst d.

End Dict.

(** Exception classes of PyJWT that [jwt.encode]/[jwt.decode] can raise.
    [InvalidTokenError] stands for every subclass of that name other than
    [ExpiredSignatureError] (DecodeError, InvalidSignatureError, ...);
    [PyJWTError] for the classes outside it (InvalidKeyError, ...), and
    [JwtTypeError] for the TypeError of a payload that is not serialisable. *)
Inductive jwt_exn : Type :=
| ExpiredSignatureError
| InvalidTokenError
| PyJWTError
| JwtTypeError.

(** What [TimestampSigner.unsign(...).decode()] can raise.  [BadSignature]
    stands for that class and its subclasses other than [SignatureExpired];
    [UnicodeDecodeError] is a subclass of the built-in ValueError. *)
Inductive signer_exn : Type :=
| SignatureExpired
| BadSignature
| UnicodeDecodeError.

(** What executing a statement can raise before any row is read, when the
    driver refuses a bound parameter: [DBAPIError] is SQLAlchemy's wrapper
    of the driver's own error (asyncpg's DataError for an integer outside
    the column's type), [OverflowError] the built-in that sqlite3 raises
    for an integer it cannot store. *)
Inductive driver_exn : Type :=
| DBAPIError
| OverflowError.

Inductive exn : Type :=
| HTTPException (status_code : Z) (detail : string)
                (headers : option (list (string * string)))
| ValueError (msg : string)
| TypeError (msg : string)
| AttributeError (msg : string)
| MultipleResultsFound
| JwtError (e : jwt_exn)
| SignerError (e : signer_exn)
| DriverError (e : driver_exn).

Inductive outcome (E A : Type) : Type :=
| Return (a : A)
| Raise (e : E).
Arguments Return {E A} a.
Arguments Raise {E A} e.

Abbreviation result := (outcome exn).

(** Sequencing: the first exception raised ends the computation.  With these
    instances [x ← c; k] is the usual notation. *)
#[global] Instance outcome_ret {E} : MRet (outcome E) := fun _ a => Return a.
#[global] Instance outcome_bind {E} : MBind (outcome E) := fun _ _ k c =>
  match c with
  | Return a => k a
  | Raise e => Raise e
  end.

Definition lift_exn {E A} (inj : E -> exn) (c : outcome E A) : result A :=
  match c with
  | Return a => Return a
  | Raise e => Raise (inj e)
  end.

(** [try: c  except ...:] where [handler e] is [Some r] when one of the
    [except] clauses, tried in order, matches [e]. *)
Definition try_except {A} (c : result A) (handler : exn -> option (result A))
  : result A :=
  match c with
  | Return a => Return a
  | Raise e => match handler e with
               | Some r => r
               | None => Raise e
               end
  end.

(** [isinstance(e, ValueError)]. *)
Definition is_ValueError (e : exn) : bool :=
  match e with
  | ValueError _ => true
  | SignerError UnicodeDecodeError => true
  | _ => false
  end.

Definition is_ExpiredSignatureError (e : exn) : bool :=
  match e with JwtError ExpiredSignatureError => true | _ => false end.

(** [isinstance(e, jwt.InvalidTokenError)]. *)
Definition is_InvalidTokenError (e : exn) : bool :=
  match e with
  | JwtError ExpiredSignatureError | JwtError InvalidTokenError => true
  | _ => false
  end.

Definition is_SignatureExpired (e : exn) : bool :=
  match e with SignerError SignatureExpired => true | _ => false end.

(** [isinstance(e, itsdangerous.BadSignature)]. *)
Definition is_BadSignature (e : exn) : bool :=
  match e with
  | SignerError SignatureExpired | SignerError BadSignature => true
  | _ => false
  end.

Module PyInt.

(** The default of [sys.get_int_max_str_digits()]. *)
Definition int_max_str_digits : nat := 4300%nat.

Definition digit_value (c : ascii) : Z := Z.of_N (PyStr.code c) - 48.

(** Digits with single underscores between them; [prev] tells whether the
    previous character was a digit. *)
Fixpoint digits (acc : Z) (prev : bool) (s : string) : option Z :=
  match s with
  | EmptyString => if prev then Some acc else None
  | String c r =>
      if PyStr.isdigit c then digits (10 * acc + digit_value c) true r
      else if Ascii.eqb c "_" then (if prev then digits acc false r else None)
      else None
  end.

Fixpoint count_digits (s : string) : nat :=
  match s with
  | EmptyString => 0%nat
  | String c r => ((if PyStr.isdigit c then 1 else 0) + count_digits r)%nat
  end.

Definition unsigned (s : string) : option Z :=
  if (int_max_str_digits <? count_digits s)%nat then None else digits 0 false s.

(** The white space [int()] skips around a number.  A character below 127
    is skipped when the C [isspace] holds for it (TAB..CR and SPACE); one
    from 127 on when it is a Unicode space, which below 256 are NEL and
    NBSP.  The separators FS..US are not skipped, although [str.isspace]
    holds for them: [int("\x1c7")] raises. *)
Definition isspace (c : ascii) : bool :=
  let n := PyStr.code c in
  ((9 <=? n) && (n <=? 13) || (n =? 32) || (n =? 133) || (n =? 160))%N.

Fixpoint lstrip (s : string) : string :=
  match s with
  | String c r => if isspace c then lstrip r else s
  | EmptyString => EmptyString
  end.

Definition strip (s : string) : string :=
  PyStr.rev (lstrip (PyStr.rev (lstrip s))).

(** [int(s)] for a [str]: surrounding white space, an optional sign, then
    the digits.  [None] is the ValueError. *)
Definition of_str (s : string) : option Z :=
  match strip s with
  | String "+" r => unsigned r
  | String "-" r => option_map Z.opp (unsigned r)
  | t => unsigned t
  end.

(** [int(v)]. *)
Definition of_value (v : value) : result Z :=
  match v with
  | VStr s =>
      match of_str s with
      | Some n => Return n
      | None => Raise (ValueError "invalid literal for int() with base 10")
      end
  | VInt n => Return n
  | VBool b => Return (if b then 1 else 0)
  | _ => Raise (TypeError "int() argument must be a string, a bytes-like object or a real number")
  end.

End PyInt.

(** [str(v)] as used by an f-string; [repr_of] supplies the text of lists,
    dictionaries and datetimes. *)
Definition py_str (repr_of : value -> string) (v : value) : string :=
  match v with
  | VStr s => s
  | VInt n => PyStr.of_Z n
  | VNone => "None"
  | VBool true => "True"
  | VBool false => "False"
  | _ => repr_of v
  end.

(** ** Configuration ([app/core/config.py]) *)

Record Settings : Type := {
  PROJECT_NAME : string;
  VERSION : string;
  AUTH_TYPE : string;
  DB_TYPE : string;
  SECRET_KEY : string;
  ALGORITHM : string;
  ACCESS_TOKEN_EXPIRE_MINUTES : Z;
  REFRESH_TOKEN_EXPIRE_DAYS : Z;
  SESSION_SECRET_KEY : option string;
  SESSION_EXPIRE_MINUTES : Z;
  POSTGRES_SERVER : string;
  POSTGRES_USER : string;
  POSTGRES_PASSWORD : string;
  POSTGRES_DB : string;
  POSTGRES_PORT : Z;
  MYSQL_SERVER : option string;
  MYSQL_USER : option string;
  MYSQL_PASSWORD : option string;
  MYSQL_DB : option string;
  MYSQL_PORT : Z;
  SQLITE_DB_PATH : string;
  LOG_LEVEL : string;
  LOG_FORMAT : string
}.

(** [not x] for an optional string: [None] and the empty string are falsy. *)
Definition falsy (x : option string) : bool :=
  match x with
  | None => true
  | Some s => PyStr.is_empty s
  end.

Definition text_of (x : option string) : string := default "None" x.

(** The [DATABASE_URL] property. *)
Definition DATABASE_URL (s : Settings) : result string :=
  if String.eqb (DB_TYPE s) "postgresql" then
    Return ("postgresql+asyncpg://" +:+ POSTGRES_USER s +:+ ":" +:+ POSTGRES_PASSWORD s
            +:+ "@" +:+ POSTGRES_SERVER s +:+ ":" +:+ PyStr.of_Z (POSTGRES_PORT s)
            +:+ "/" +:+ POSTGRES_DB s)
  else if String.eqb (DB_TYPE s) "mysql" then
    if falsy (MYSQL_SERVER s) || falsy (MYSQL_USER s)
       || falsy (MYSQL_PASSWORD s) || falsy (MYSQL_DB s)
    then Raise (ValueError "MySQL configuration is incomplete")
    else
      Return ("mysql+aiomysql://" +:+ text_of (MYSQL_USER s) +:+ ":" +:+ text_of (MYSQL_PASSWORD s)
              +:+ "@" +:+ text_of (MYSQL_SERVER s) +:+ ":" +:+ PyStr.of_Z (MYSQL_PORT s)
              +:+ "/" +:+ text_of (MYSQL_DB s))
  else if String.eqb (DB_TYPE s) "sqlite" then
    Return ("sqlite+aiosqlite:///" +:+ SQLITE_DB_PATH s)
  else Raise (ValueError ("Unsupported database type: " +:+ DB_TYPE s)).

(** ** The libraries *)

(** Entry points of PyJWT and itsdangerous, with the clock they read made an
    argument (microseconds since the epoch), and of SQLAlchemy and
    [logging].
    - [jwt_encode payload key algorithm] is [jwt.encode(payload, key, algorithm=algorithm)];
    - [jwt_decode token key algorithms now] is [jwt.decode(token, key, algorithms=algorithms)];
    - [signer_sign key text now] is [TimestampSigner(key).sign(text).decode()];
    - [signer_unsign key token max_age now] is
      [TimestampSigner(key).unsign(token, max_age=max_age).decode()];
    - [repr_of] is the interpreter's text for a list, dictionary or datetime;
    - [bind_integer n] is what the driver does with the integer [n] bound
      as the parameter of a comparison with the identifier column: it
      takes it, or raises because [n] is outside the column's type;
    - [create_async_engine url echo pool_size max_overflow pool_pre_ping]
      is the call of that name: it raises for a URL it cannot parse, a
      driver that is not installed, or a pool that does not take the size
      arguments;
    - [logging_set_level name] is
      [logging.getLogger().setLevel(getattr(logging, name.upper()))], which
      raises when [logging] has no such attribute or it is not a level. *)
Class Library : Type := {
  jwt_encode : pydict -> string -> string -> outcome jwt_exn string;
  jwt_decode : string -> string -> list string -> Z -> outcome jwt_exn pydict;
  signer_sign : string -> string -> Z -> string;
  signer_unsign : string -> string -> Z -> Z -> outcome signer_exn string;
  repr_of : value -> string;
  bind_integer : Z -> outcome driver_exn unit;
  create_async_engine : string -> bool -> Z -> Z -> bool -> result unit;
  logging_set_level : string -> result unit
}.

(** ** The object store *)

(** Dictionaries are passed by reference: a [loc] names a dictionary object
    of the [heap].  An operation on a location that names no object has no
    result ([None]); it does not arise from a well-formed store. *)
Abbreviation loc := nat.
Abbreviation heap := (gmap nat pydict).

Module Store.

(** [d.copy()]: a new object with the same entries. *)
Definition copy (l : loc) (h : heap) : option (loc * heap) :=
  d ← h !! l;
  let l' := fresh (dom h) in
  Some (l', <[l' := d]> h).

(** [d.update(other)], in place. *)
Definition update (l : loc) (other : pydict) (h : heap) : option heap :=
  d ← h !! l;
  Some (<[l := Dict.update other d]> h).

End Store.

(** The whole second an instant falls in. *)
Definition seconds (us : Z) : Z := us / 1000000.

Definition timedelta_minutes (m : Z) : Z := m * 60 * 1000000.
Definition timedelta_days (d : Z) : Z := d * 86400 * 1000000.

Definition status_HTTP_401_UNAUTHORIZED : Z := 401.
Definition status_HTTP_403_FORBIDDEN : Z := 403.
Definition status_HTTP_500_INTERNAL_SERVER_ERROR : Z := 500.

Definition bearer_hint : option (list (string * string)) :=
  Some [("WWW-Authenticate", "Bearer")].

(** ** [app/auth/providers/jwt_provider.py] *)

Module JWTProvider.
Section WithLibrary.
Context {L : Library}.

(** [expires_delta] is [None] or a [timedelta]; a zero [timedelta] is
    falsy, like [None]. *)
Definition access_expiry (s : Settings) (expires_delta : option Z) (now : Z) : Z :=
  match expires_delta with
  | Some delta =>
      if delta =? 0
      then now + timedelta_minutes (ACCESS_TOKEN_EXPIRE_MINUTES s)
      else now + delta
  | None => now + timedelta_minutes (ACCESS_TOKEN_EXPIRE_MINUTES s)
  end.

Definition create_access_token (s : Settings) (data : loc)
    (expires_delta : option Z) (now : Z) (h : heap)
  : option (result string * heap) :=
  '(to_encode, h1) ← Store.copy data h;
  let expire := access_expiry s expires_delta now in
  h2 ← Store.update to_encode [("exp", VDatetime expire)] h1;
  payload ← h2 !! to_encode;
  let encoded_jwt := lift_exn JwtError (jwt_encode payload (SECRET_KEY s) (ALGORITHM s)) in
  Some (encoded_jwt, h2).

Definition create_refresh_token (s : Settings) (data : loc) (now : Z) (h : heap)
  : option (result string * heap) :=
  '(to_encode, h1) ← Store.copy data h;
  let expire := now + timedelta_days (REFRESH_TOKEN_EXPIRE_DAYS s) in
  h2 ← Store.update to_encode [("exp", VDatetime expire)] h1;
  payload ← h2 !! to_encode;
  let encoded_jwt := lift_exn JwtError (jwt_encode payload (SECRET_KEY s) (ALGORITHM s)) in
  Some (encoded_jwt, h2).

(** Declared [Dict[str, Any] | None]: the result is an optional
    dictionary. *)
Definition verify_token (s : Settings) (token : string) (now : Z)
  : result (option pydict) :=
  try_except
    (payload ← lift_exn JwtError (jwt_decode token (SECRET_KEY s) [ALGORITHM s] now);
     Return (Some payload))
    (fun e =>
       if is_ExpiredSignatureError e then
         Some (Raise (HTTPException status_HTTP_401_UNAUTHORIZED "Token has expired" bearer_hint))
       else if is_InvalidTokenError e then
         Some (Raise (HTTPException status_HTTP_401_UNAUTHORIZED "Invalid token" bearer_hint))
       else None).

Definition get_current_user (s : Settings) (token : string) (now : Z) : result pydict :=
  payload ← verify_token s token now;
  match payload with
  | None =>
      Raise (HTTPException status_HTTP_401_UNAUTHORIZED "Could not validate credentials" bearer_hint)
  | Some p => Return p
  end.

End WithLibrary.
End JWTProvider.

(** [a, b = items]. *)
Definition unpack2 (items : list string) : result (string * string) :=
  match items with
  | [a; b] => Return (a, b)
  | [] | [_] => Raise (ValueError "not enough values to unpack (expected 2)")
  | _ => Raise (ValueError "too many values to unpack (expected 2)")
  end.

(** ** [app/auth/providers/login_password_provider.py] *)

Module LoginPasswordProvider.

(** The instance attributes: the key the [TimestampSigner] was built with,
    and [max_age] in seconds. *)
Record t : Type := { signer : string; max_age : Z }.

(** [__init__]. *)
Definition init (s : Settings) : result t :=
  if falsy (SESSION_SECRET_KEY s) then
    Raise (ValueError "SESSION_SECRET_KEY is required for session authentication")
  else
    Return {| signer := text_of (SESSION_SECRET_KEY s);
              max_age := SESSION_EXPIRE_MINUTES s * 60 |}.

Section WithLibrary.
Context {L : Library}.

(** [session_id] is the draw of [secrets.token_urlsafe(32)];
    [expires_delta] is accepted and not used. *)
Definition create_access_token (self : t) (data : loc) (expires_delta : option Z)
    (session_id : string) (now : Z) (h : heap)
  : option (result string * heap) :=
  d ← h !! data;
  let sub := default (VStr "") (Dict.get "sub" d) in
  let signed_session :=
    signer_sign (signer self) (session_id +:+ ":" +:+ py_str repr_of sub) now in
  Some (Return signed_session, h).

Definition verify_token (self : t) (token : string) (now : Z)
  : result (option pydict) :=
  try_except
    (unsigned ← lift_exn SignerError (signer_unsign (signer self) token (max_age self) now);
     '(session_id, user_id) ← unpack2 (PyStr.split1 ":" unsigned);
     Return (Some [("sub", VStr user_id); ("session_id", VStr session_id)]))
    (fun e =>
       if is_SignatureExpired e then
         Some (Raise (HTTPException status_HTTP_401_UNAUTHORIZED "Session has expired" None))
       else if is_BadSignature e || is_ValueError e then
         Some (Raise (HTTPException status_HTTP_401_UNAUTHORIZED "Invalid session" None))
       else None).

Definition verify_session (self : t) (session_token : string) (now : Z)
  : result (option pydict) :=
  verify_token self session_token now.

Definition get_current_user (self : t) (token : string) (now : Z) : result pydict :=
  payload ← verify_token self token now;
  match payload with
  | None =>
      Raise (HTTPException status_HTTP_401_UNAUTHORIZED "Could not validate credentials" None)
  | Some p => Return p
  end.

End WithLibrary.
End LoginPasswordProvider.

(** The characters [secrets.token_urlsafe] draws from. *)
Definition url_safe_char (c : ascii) : bool :=
  let n := PyStr.code c in
  ((48 <=? n) && (n <=? 57) || (65 <=? n) && (n <=? 90)
   || (97 <=? n) && (n <=? 122) || (n =? 45) || (n =? 95))%N.

Fixpoint url_safe (s : string) : bool :=
  match s with
  | EmptyString => true
  | String c r => url_safe_char c && url_safe r
  end.

(** ** The principal and its repository *)

(** Modelled from the spec: the [User] model of [app/models/user.py], which
    is not among the sources; the fields are those the spec's Principal and
    the response schema name. *)
Record User : Type := {
  id : Z;
  email : string;
  full_name : option string;
  is_active : bool;
  is_superuser : bool
}.

(** The state of the users table, as the session sees it. *)
Abbreviation database := (list User).

Definition scalar_one_or_none (rows : list User) : result (option User) :=
  match rows with
  | [] => Return None
  | [u] => Return (Some u)
  | _ => Raise MultipleResultsFound
  end.

(** [BaseRepository.get_by_id]: [id] is bound as the parameter of
    [select(User).where(User.id == id)], and what the statement selects
    goes through [scalar_one_or_none()].  An integer the driver does not
    bind ends the call with the driver's exception. *)
Definition get_by_id {L : Library} (db : database) (n : Z) : result (option User) :=
  _ ← lift_exn DriverError (bind_integer n);
  scalar_one_or_none (filter (fun u => id u = n) db).

(** ** [app/dependencies.py] *)

Inductive BaseAuthProvider : Type :=
| AsJWTProvider
| AsLoginPasswordProvider (self : LoginPasswordProvider.t).

Definition get_auth_provider (s : Settings) : result BaseAuthProvider :=
  if String.eqb (AUTH_TYPE s) "jwt" then Return AsJWTProvider
  else if String.eqb (AUTH_TYPE s) "login_password" then
    self ← LoginPasswordProvider.init s; Return (AsLoginPasswordProvider self)
  else Raise (ValueError ("Unsupported authentication type: " +:+ AUTH_TYPE s)).

Section Dependencies.
Context {L : Library}.

(** Method dispatch on the provider object. *)
Definition verify_token (auth_provider : BaseAuthProvider) (s : Settings)
    (token : string) (now : Z) : result (option pydict) :=
  match auth_provider with
  | AsJWTProvider => JWTProvider.verify_token s token now
  | AsLoginPasswordProvider self => LoginPasswordProvider.verify_token self token now
  end.

Definition create_access_token (auth_provider : BaseAuthProvider) (s : Settings)
    (data : loc) (expires_delta : option Z) (session_id : string) (now : Z) (h : heap)
  : option (result string * heap) :=
  match auth_provider with
  | AsJWTProvider => JWTProvider.create_access_token s data expires_delta now h
  | AsLoginPasswordProvider self =>
      LoginPasswordProvider.create_access_token self data expires_delta session_id now h
  end.

(** [payload.get(key)] where [payload] may be [None]. *)
Definition payload_get (payload : option pydict) (key : string) : result (option value) :=
  match payload with
  | Some d => Return (Dict.get key d)
  | None => Raise (AttributeError "'NoneType' object has no attribute 'get'")
  end.

Definition unauthorized (detail : string) : exn :=
  HTTPException status_HTTP_401_UNAUTHORIZED detail bearer_hint.

Definition get_current_user (s : Settings) (authorization : option string)
    (db : database) (auth_provider : BaseAuthProvider) (now : Z) : result User :=
  if falsy authorization then Raise (unauthorized "Not authenticated")
  else
    token ← try_except
      ('(scheme, token) ← unpack2 (PyStr.split_ws (text_of authorization));
       if negb (String.eqb (PyStr.lower scheme) "bearer")
       then Raise (unauthorized "Invalid authentication scheme")
       else Return token)
      (fun e =>
         if is_ValueError e then Some (Raise (unauthorized "Invalid authorization header"))
         else None);
    payload ← verify_token auth_provider s token now;
    user_id ← payload_get payload "sub";
    match user_id with
    | None | Some VNone => Raise (unauthorized "Invalid token payload")
    | Some v =>
        n ← PyInt.of_value v;
        user ← get_by_id db n;
        match user with
        | None => Raise (unauthorized "User not found")
        | Some u => Return u
        end
    end.

Definition get_current_active_user (current_user : User) : result User :=
  if negb (is_active current_user) then
    Raise (HTTPException status_HTTP_403_FORBIDDEN "Inactive user" None)
  else Return current_user.

(** What [Depends(...)] does for one request: the sub-dependencies are
    called, in order, and their results passed on. *)
Definition resolve_current_user (s : Settings) (authorization : option string)
    (db : database) (now : Z) : result User :=
  auth_provider ← get_auth_provider s;
  get_current_user s authorization db auth_provider now.

Definition resolve_current_active_user (s : Settings) (authorization : option string)
    (db : database) (now : Z) : result User :=
  current_user ← resolve_current_user s authorization db now;
  get_current_active_user current_user.

End Dependencies.

(** ** The HTTP boundary and start-up ([app/core/handlers.py], [app/main.py]) *)

Record Response : Type := {
  status : Z;
  detail : string;
  response_headers : option (list (string * string))
}.

(** An [HTTPException] becomes a response with its status, detail and
    headers; anything else reaches [general_exception_handler]. *)
Definition exception_response (e : exn) : Response :=
  match e with
  | HTTPException code d hs =>
      {| status := code; detail := d; response_headers := hs |}
  | _ =>
      {| status := status_HTTP_500_INTERNAL_SERVER_ERROR;
         detail := "Internal server error";
         response_headers := None |}
  end.

Section Startup.
Context {L : Library}.

(** Importing [app.db.session] builds the engine from [DATABASE_URL]. *)
Definition session_module_init (s : Settings) : result unit :=
  url ← DATABASE_URL s;
  create_async_engine url (String.eqb (LOG_LEVEL s) "DEBUG") 10 20 true.

(** The formatter [setup_logging] installs on the root logger's handler. *)
Inductive Formatter : Type :=
| JsonFormatter
| TextFormatter.

(** [setup_logging] of [app/core/logger.py]: the level of the root logger,
    then one handler on the standard output with the formatter that
    [LOG_FORMAT] selects and the correlation filter. *)
Definition setup_logging (s : Settings) : result Formatter :=
  _ ← logging_set_level (LOG_LEVEL s);
  Return (if String.eqb (LOG_FORMAT s) "json" then JsonFormatter else TextFormatter).

(** The three lines [lifespan] logs before the first request. *)
Definition lifespan_startup (s : Settings) : list string :=
  [ "Starting " +:+ PROJECT_NAME s +:+ " v" +:+ VERSION s;
    "Database: " +:+ DB_TYPE s;
    "Authentication: " +:+ AUTH_TYPE s ].

(** Process start, in the order of [app/main.py]: its imports load
    [app.db.session] through the router; then [setup_logging()] runs; then
    the application object is built and, when the server starts it, the
    lifespan hook logs.  Building the application object passes
    [PROJECT_NAME], [VERSION] and the CORS origins on and registers
    handlers, middleware and routes; it reads neither [AUTH_TYPE] nor the
    session settings and calls none of the providers. *)
Definition app_startup (s : Settings) : result (list string) :=
  _ ← session_module_init s;
  _ ← setup_logging s;
  Return (lifespan_startup s).

End Startup.

(** The configuration [s] with another provider kind and session secret. *)
Definition with_auth (s : Settings) (kind : string) (secret : option string) : Settings := {|
  PROJECT_NAME := PROJECT_NAME s;
  VERSION := VERSION s;
  AUTH_TYPE := kind;
  DB_TYPE := DB_TYPE s;
  SECRET_KEY := SECRET_KEY s;
  ALGORITHM := ALGORITHM s;
  ACCESS_TOKEN_EXPIRE_MINUTES := ACCESS_TOKEN_EXPIRE_MINUTES s;
  REFRESH_TOKEN_EXPIRE_DAYS := REFRESH_TOKEN_EXPIRE_DAYS s;
  SESSION_SECRET_KEY := secret;
  SESSION_EXPIRE_MINUTES := SESSION_EXPIRE_MINUTES s;
  POSTGRES_SERVER := POSTGRES_SERVER s;
  POSTGRES_USER := POSTGRES_USER s;
  POSTGRES_PASSWORD := POSTGRES_PASSWORD s;
  POSTGRES_DB := POSTGRES_DB s;
  POSTGRES_PORT := POSTGRES_PORT s;
  MYSQL_SERVER := MYSQL_SERVER s;
  MYSQL_USER := MYSQL_USER s;
  MYSQL_PASSWORD := MYSQL_PASSWORD s;
  MYSQL_DB := MYSQL_DB s;
  MYSQL_PORT := MYSQL_PORT s;
  SQLITE_DB_PATH := SQLITE_DB_PATH s;
  LOG_LEVEL := LOG_LEVEL s;
  LOG_FORMAT := LOG_FORMAT s
|}.

(** ** A test double of the libraries

    Small stand-ins used to run the development on concrete inputs: a token
    is its text followed by the time in seconds and the key, separated by
    dots.  The bearer double carries the ["sub"] and ["exp"] claims and,
    after an [@], an ["aud"] claim; like PyJWT it refuses to decode a token
    with an audience when the caller names none.  The driver binds 64-bit
    signed integers, the engine is built for every URL but the in-memory
    SQLite database (whose pool takes no size), and [logging] takes the
    names of its levels. *)

Module TestDouble.

(** The text before and after the last occurrence of [sep]. *)
Definition cut_last (sep : ascii) (s : string) : option (string * string) :=
  match PyStr.cut_first sep (PyStr.rev s) with
  | Some (b, a) => Some (PyStr.rev a, PyStr.rev b)
  | None => None
  end.

Definition seal (text : string) (time : Z) (key : string) : string :=
  text +:+ "." +:+ PyStr.of_Z time +:+ "." +:+ key.

(** The text and the time of a token sealed with [key]. *)
Definition unseal (token key : string) : option (string * Z) :=
  '(body, k) ← cut_last "." token;
  if String.eqb k key then
    '(text, stamp) ← cut_last "." body;
    time ← PyInt.of_str stamp;
    Some (text, time)
  else None.

Definition sign (key text : string) (now : Z) : string :=
  seal text (seconds now) key.

Definition unsign (key token : string) (max_age now : Z)
  : outcome signer_exn string :=
  match unseal token key with
  | Some (text, stamp) =>
      let age := seconds now - stamp in
      if (max_age <? age) || (age <? 0) then Raise SignatureExpired
      else Return text
  | None => Raise BadSignature
  end.

Definition encode (payload : pydict) (key algorithm : string)
  : outcome jwt_exn string :=
  match payload with
  | [("sub", VStr sub); ("exp", VDatetime exp)] =>
      if String.eqb algorithm "HS256" then Return (seal sub (seconds exp) key)
      else Raise PyJWTError
  | [("sub", VStr sub); ("aud", VStr aud); ("exp", VDatetime exp)] =>
      if String.eqb algorithm "HS256"
      then Return (seal (sub +:+ "@" +:+ aud) (seconds exp) key)
      else Raise PyJWTError
  | _ => Raise JwtTypeError
  end.

(** Called without an [audience], as the provider does: after the expiry
    check a token that carries an audience is refused (PyJWT's
    InvalidAudienceError, a subclass of InvalidTokenError). *)
Definition decode (token key : string) (algorithms : list string) (now : Z)
  : outcome jwt_exn pydict :=
  match unseal token key with
  | Some (text, exp) =>
      if exp <=? seconds now then Raise ExpiredSignatureError
      else match PyStr.cut_first "@" text with
           | Some _ => Raise InvalidTokenError
           | None => Return [("sub", VStr text); ("exp", VInt exp)]
           end
  | None => Raise InvalidTokenError
  end.

Definition bind (n : Z) : outcome driver_exn unit :=
  if (-9223372036854775808 <=? n) && (n <=? 9223372036854775807) then Return tt
  else Raise DBAPIError.

Definition engine (url : string) (echo : bool) (pool_size max_overflow : Z)
    (pool_pre_ping : bool) : result unit :=
  if String.eqb url "sqlite+aiosqlite:///:memory:"
  then Raise (TypeError "Invalid argument(s) 'pool_size','max_overflow' sent to create_engine()")
  else Return tt.

Definition set_level (name : string) : result unit :=
  if bool_decide (PyStr.lower name ∈ ["notset"; "debug"; "info"; "warning"; "warn";
                                      "error"; "critical"; "fatal"])
  then Return tt
  else Raise (AttributeError "module 'logging' has no attribute of that name").

#[local] Instance library : Library := {|
  jwt_encode := encode;
  jwt_decode := decode;
  signer_sign := sign;
  signer_unsign := unsign;
  repr_of := fun _ => "<object>";
  bind_integer := bind;
  create_async_engine := engine;
  logging_set_level := set_level
|}.

Definition settings (auth_type : string) (session_secret : option string) : Settings := {|
  PROJECT_NAME := "FastAPI Boilerplate";
  VERSION := "1.0.0";
  AUTH_TYPE := auth_type;
  DB_TYPE := "postgresql";
  SECRET_KEY := "k1";
  ALGORITHM := "HS256";
  ACCESS_TOKEN_EXPIRE_MINUTES := 30;
  REFRESH_TOKEN_EXPIRE_DAYS := 7;
  SESSION_SECRET_KEY := session_secret;
  SESSION_EXPIRE_MINUTES := 60;
  POSTGRES_SERVER := "localhost";
  POSTGRES_USER := "postgres";
  POSTGRES_PASSWORD := "postgres";
  POSTGRES_DB := "fastapi_db";
  POSTGRES_PORT := 5432;
  MYSQL_SERVER := None;
  MYSQL_USER := None;
  MYSQL_PASSWORD := None;
  MYSQL_DB := None;
  MYSQL_PORT := 3306;
  SQLITE_DB_PATH := "./data/app.db";
  LOG_LEVEL := "INFO";
  LOG_FORMAT := "json"
|}.

Definition session_provider : LoginPasswordProvider.t :=
  {| LoginPasswordProvider.signer := "k2"; LoginPasswordProvider.max_age := 3600 |}.

Definition user (n : Z) (active : bool) : User := {|
  id := n; email := "a@example.org"; full_name := None;
  is_active := active; is_superuser := false
|}.

(** A store holding one claims dictionary at location 0. *)
Definition store (d : pydict) : heap := {[ 0%nat := d ]}.

End TestDouble.

(** Configurations and requests for the test double. *)
Module Concrete.
Import TestDouble.

Definition jwt_settings : Settings := settings "jwt" None.
Definition session_settings : Settings := settings "login_password" (Some "k2").
Definition oauth2_settings : Settings := settings "oauth2" None.
Definition keyless_settings : Settings := settings "login_password" None.


End Concrete.

(** ** Vocabulary of the statements *)

Section Vocabulary.
Context {L : Library}.


(** The contract of itsdangerous at one text: a token signed at [now] is
    unsigned to the same text at [now'] while its age, in whole seconds,
    is between zero and [max_age]. *)
Definition signer_round_trip (key text : string) (max_age now now' : Z) : Prop :=
  0 ≤ seconds now' - seconds now ≤ max_age →
  signer_unsign key (signer_sign key text now) max_age now' = Return text.


(** The text the session provider signs for the claims [d]. *)
Definition session_text (session_id : string) (d : pydict) : string :=
  session_id +:+ ":" +:+ py_str repr_of (default (VStr "") (Dict.get "sub" d)).



(** The request carries ["<scheme> <token>"] with a scheme that lower-cases
    to ["bearer"]. *)
Definition carries_bearer (authorization : option string) (token : string) : Prop :=
  ∃ a scheme, authorization = Some a
              ∧ PyStr.split_ws a = [scheme; token]
              ∧ PyStr.lower scheme = "bearer".

(** The steps of [get_current_user] that follow the header. *)
Definition after_header (s : Settings) (db : database) (p : BaseAuthProvider)
    (now : Z) (token : string) : result User :=
  payload ← verify_token p s token now;
  user_id ← payload_get payload "sub";
  match user_id with
  | None | Some VNone => Raise (unauthorized "Invalid token payload")
  | Some v =>
      n ← PyInt.of_value v;
      user ← get_by_id db n;
      match user with
      | None => Raise (unauthorized "User not found")
      | Some u => Return u
      end
  end.

(** The exceptions that can leave [get_current_user]: an [HTTPException]
    only with status 401, never an [AttributeError], never a library
    exception class that a provider catches. *)
Definition may_escape (e : exn) : Prop :=
  match e with
  | HTTPException code _ _ => code = status_HTTP_401_UNAUTHORIZED
  | AttributeError _ => False
  | JwtError ExpiredSignatureError | JwtError InvalidTokenError => False
  | SignerError _ => False
  | _ => True
  end.

(** The provider's library refuses the token as expired or invalid. *)
Definition library_rejects (p : BaseAuthProvider) (s : Settings) (token : string) (now : Z)
  : Prop :=
  match p with
  | AsJWTProvider =>
      jwt_decode token (SECRET_KEY s) [ALGORITHM s] now = Raise ExpiredSignatureError
      ∨ jwt_decode token (SECRET_KEY s) [ALGORITHM s] now = Raise InvalidTokenError
  | AsLoginPasswordProvider self =>
      ∃ e, signer_unsign (LoginPasswordProvider.signer self) token
             (LoginPasswordProvider.max_age self) now = Raise e
  end.

Definition unsupported (s : Settings) : exn :=
  ValueError ("Unsupported authentication type: " +:+ AUTH_TYPE s).

Definition secret_required : exn :=
  ValueError "SESSION_SECRET_KEY is required for session authentication".

End Vocabulary.

(** * The rest of the application *)

(** ** Words of a header *)

(** Some character of [s] is white space. *)
Fixpoint has_space (s : string) : bool :=
  match s with
  | EmptyString => false
  | String c r => PyStr.isspace c || has_space r
  end.

(** Every character of [s] is white space. *)
Fixpoint all_space (s : string) : bool :=
  match s with
  | EmptyString => true
  | String c r => PyStr.isspace c && all_space r
  end.

(** A non-empty run of characters none of which is white space. *)
Definition is_word (w : string) : Prop := w ≠ "" ∧ has_space w = false.

(** ** Decimal text *)

(** The number that a run of decimal digits denotes when read, left to
    right, after the digits already worth [acc]. *)
Fixpoint uint_value (acc : Z) (d : Decimal.uint) : Z :=
  match d with
  | Decimal.Nil => acc
  | Decimal.D0 l => uint_value (10 * acc + 0) l
  | Decimal.D1 l => uint_value (10 * acc + 1) l
  | Decimal.D2 l => uint_value (10 * acc + 2) l
  | Decimal.D3 l => uint_value (10 * acc + 3) l
  | Decimal.D4 l => uint_value (10 * acc + 4) l
  | Decimal.D5 l => uint_value (10 * acc + 5) l
  | Decimal.D6 l => uint_value (10 * acc + 6) l
  | Decimal.D7 l => uint_value (10 * acc + 7) l
  | Decimal.D8 l => uint_value (10 * acc + 8) l
  | Decimal.D9 l => uint_value (10 * acc + 9) l
  end.

(** The first digit of [d] is a zero. *)
Definition leading_zero (d : Decimal.uint) : bool :=
  match d with
  | Decimal.D0 _ => true
  | _ => false
  end.

(** ** The users table and its repository
    ([app/db/repositories/base.py], [app/db/repositories/user.py]) *)

(** Modelled from the spec: a row of the users table, whose model
    [app/models/user.py] is not among the sources: the principal together
    with the password hash that [auth.py] reads and writes. *)
Record Account : Type := {
  user : User;
  hashed_password : string
}.

(** The principals of the stored rows: the table as [get_current_user]
    reads it. *)
Definition principals (rows : list Account) : database := map user rows.

(** [Result.scalar_one_or_none()]. *)
Definition one_or_none {A : Type} (rows : list A) : result (option A) :=
  match rows with
  | [] => Return None
  | [a] => Return (Some a)
  | _ => Raise MultipleResultsFound
  end.

Module UserRepository.

(** [BaseRepository.get_by_id] on the rows themselves, for an identifier
    that the driver binds, such as the identifier of a row the session has
    loaded, which is what [update_by_id] is called with. *)
Definition get_by_id (rows : list Account) (n : Z) : result (option Account) :=
  one_or_none (filter (λ a, id (user a) = n) rows).

Definition get_by_email (rows : list Account) (e : string) : result (option Account) :=
  one_or_none (filter (λ a, email (user a) = e) rows).

(** [BaseRepository.exists] with its keyword filters, here the predicate
    [matches]: the query result goes through [scalar_one_or_none()]. *)
Definition exists_ (matches : Account → Prop) `{∀ a, Decision (matches a)}
    (rows : list Account) : result bool :=
  found ← one_or_none (filter matches rows);
  Return (bool_decide (is_Some found)).

Definition email_exists (rows : list Account) (e : string) : result bool :=
  exists_ (λ a, email (user a) = e) rows.

(** [BaseRepository.create]: the new object is added and committed;
    [db_obj] is the object after [refresh], with the identifier the
    database gave it. *)
Definition create (rows : list Account) (db_obj : Account) : Account * list Account :=
  (db_obj, (rows ++ [db_obj])%list).

(** [BaseRepository.delete_by_id]. *)
Definition delete_by_id (rows : list Account) (n : Z) : result bool * list Account :=
  match get_by_id rows n with
  | Raise e => (Raise e, rows)
  | Return None => (Return false, rows)
  | Return (Some db_obj) => (Return true, filter (λ a, id (user a) ≠ n) rows)
  end.

End UserRepository.

(** ** Password hashing *)

(** The two functions of [app/utils/security.py], which is not among the
    sources.  [hash_password salt password] is [hash_password(password)],
    [salt] standing for whatever randomness the hash draws;
    [verify_password plain hashed] is the check of a candidate against a
    stored hash. *)
Class Security : Type := {
  hash_password : string → string → string;
  verify_password : string → string → bool
}.

(** ** Request and response schemas ([app/schemas/]) *)

Module LoginRequest.
Record t : Type := { email : string; password : string }.
End LoginRequest.

Module UserCreate.
Record t : Type := {
  email : string;
  full_name : option string;
  is_active : bool;
  is_superuser : bool;
  password : string
}.
End UserCreate.

Record Token : Type := {
  access_token : string;
  token_type : string;
  refresh_token : option string
}.

Definition status_HTTP_400_BAD_REQUEST : Z := 400.
Definition status_HTTP_404_NOT_FOUND : Z := 404.

(** A dictionary display [{...}]: a new object of the store. *)
Definition new_dict (d : pydict) (h : heap) : loc * heap :=
  let l := fresh (dom h) in (l, <[l := d]> h).

(** ** [app/api/v1/endpoints/auth.py] *)

Section AuthEndpoints.
Context {L : Library} {Sec : Security}.

(** [register]: the outcome and the table afterwards.  [assigned_id] is
    the identifier the database gives the new row. *)
Definition register (user_in : UserCreate.t) (salt : string) (assigned_id : Z)
    (rows : list Account) : result User * list Account :=
  match UserRepository.email_exists rows (UserCreate.email user_in) with
  | Raise e => (Raise e, rows)
  | Return true =>
      (Raise (HTTPException status_HTTP_400_BAD_REQUEST "Email already registered" None), rows)
  | Return false =>
      let db_obj := {|
        user := {| id := assigned_id;
                   email := UserCreate.email user_in;
                   full_name := UserCreate.full_name user_in;
                   is_active := UserCreate.is_active user_in;
                   is_superuser := UserCreate.is_superuser user_in |};
        hashed_password := hash_password salt (UserCreate.password user_in) |} in
      let '(created, rows') := UserRepository.create rows db_obj in
      (Return (user created), rows')
  end.

Definition login_rejected : exn :=
  HTTPException status_HTTP_401_UNAUTHORIZED "Incorrect email or password" None.

(** [login], given the provider that [Depends(get_auth_provider)] supplied.
    [now] and [now_refresh] are the clock readings of the two issue calls. *)
Definition login (s : Settings) (login_data : LoginRequest.t) (rows : list Account)
    (auth_provider : BaseAuthProvider) (session_id : string) (now now_refresh : Z)
    (h : heap) : option (result Token * heap) :=
  match UserRepository.get_by_email rows (LoginRequest.email login_data) with
  | Raise e => Some (Raise e, h)
  | Return None => Some (Raise login_rejected, h)
  | Return (Some account) =>
      if negb (verify_password (LoginRequest.password login_data) (hashed_password account))
      then Some (Raise login_rejected, h)
      else if negb (is_active (user account))
      then Some (Raise (HTTPException status_HTTP_403_FORBIDDEN "Inactive user" None), h)
      else
        let '(data, h1) := new_dict [("sub", VStr (PyStr.of_Z (id (user account))))] h in
        '(issued, h2) ← create_access_token auth_provider s data None session_id now h1;
        match issued with
        | Raise e => Some (Raise e, h2)
        | Return access =>
            match auth_provider with
            | AsJWTProvider =>
                let '(data', h3) :=
                  new_dict [("sub", VStr (PyStr.of_Z (id (user account))))] h2 in
                '(reissued, h4) ← JWTProvider.create_refresh_token s data' now_refresh h3;
                match reissued with
                | Raise e => Some (Raise e, h4)
                | Return refresh =>
                    Some (Return {| access_token := access; token_type := "bearer";
                                    refresh_token := Some refresh |}, h4)
                end
            | AsLoginPasswordProvider _ =>
                Some (Return {| access_token := access; token_type := "bearer";
                                refresh_token := None |}, h2)
            end
        end
  end.

(** The endpoint with its dependency. *)
Definition resolve_login (s : Settings) (login_data : LoginRequest.t) (rows : list Account)
    (session_id : string) (now now_refresh : Z) (h : heap)
  : option (result Token * heap) :=
  match get_auth_provider s with
  | Raise e => Some (Raise e, h)
  | Return auth_provider => login s login_data rows auth_provider session_id now now_refresh h
  end.

End AuthEndpoints.

(** ** [app/api/v1/endpoints/users.py] *)

Section UsersEndpoints.
Context {L : Library}.

(** [GET /me]: depends on [get_current_user]. *)
Definition get_current_user_info (s : Settings) (authorization : option string)
    (rows : list Account) (now : Z) : result User :=
  resolve_current_user s authorization (principals rows) now.

(** [GET /{user_id}]: depends on [get_current_active_user]. *)
Definition get_user (s : Settings) (authorization : option string)
    (rows : list Account) (now : Z) (user_id : Z) : result User :=
  current_user ← resolve_current_active_user s authorization (principals rows) now;
  found ← get_by_id (principals rows) user_id;
  match found with
  | None => Raise (HTTPException status_HTTP_404_NOT_FOUND "User not found" None)
  | Some u => Return u
  end.

End UsersEndpoints.

(** ** Updating the current user ([PATCH /me]) *)

(** [UserUpdate] after [model_dump(exclude_unset=True)]: a field is [None]
    when the request did not set it.  [full_name] may be set to null; a
    request that sets one of the other fields to null is outside the
    model. *)
Module UserUpdate.
Record t : Type := {
  email : option string;
  password : option string;
  full_name : option (option string);
  is_active : option bool;
  is_superuser : option bool
}.
End UserUpdate.

(** The dictionary [update_by_id] receives: the keys present and their
    values. *)
Record Patch : Type := {
  patch_email : option string;
  patch_full_name : option (option string);
  patch_is_active : option bool;
  patch_is_superuser : option bool;
  patch_hashed_password : option string
}.

(** The [setattr] loop of [update_by_id]: every key of the dictionary is an
    attribute of the row and is assigned. *)
Definition apply_patch (obj_in : Patch) (db_obj : Account) : Account := {|
  user := {| id := id (user db_obj);
             email := default (email (user db_obj)) (patch_email obj_in);
             full_name := default (full_name (user db_obj)) (patch_full_name obj_in);
             is_active := default (is_active (user db_obj)) (patch_is_active obj_in);
             is_superuser := default (is_superuser (user db_obj)) (patch_is_superuser obj_in) |};
  hashed_password := default (hashed_password db_obj) (patch_hashed_password obj_in)
|}.

(** [BaseRepository.update_by_id]: the row found is modified and committed. *)
Definition update_by_id (rows : list Account) (n : Z) (obj_in : Patch)
  : result (option Account) * list Account :=
  match UserRepository.get_by_id rows n with
  | Raise e => (Raise e, rows)
  | Return None => (Return None, rows)
  | Return (Some db_obj) =>
      let updated := apply_patch obj_in db_obj in
      (Return (Some updated),
       map (λ a, if decide (id (user a) = n) then updated else a) rows)
  end.

Section UpdateEndpoint.
Context {Sec : Security}.

(** The dictionary the endpoint builds: the password, when set, is replaced
    by its hash under the key [hashed_password]. *)
Definition update_data (user_update : UserUpdate.t) (salt : string) : Patch := {|
  patch_email := UserUpdate.email user_update;
  patch_full_name := UserUpdate.full_name user_update;
  patch_is_active := UserUpdate.is_active user_update;
  patch_is_superuser := UserUpdate.is_superuser user_update;
  patch_hashed_password := hash_password salt <$> UserUpdate.password user_update
|}.

(** The body of [update_current_user], for the principal that
    [get_current_active_user] supplied: the object handed to
    [UserResponse.model_validate] and the table afterwards. *)
Definition update_current_user (user_update : UserUpdate.t) (salt : string)
    (current_user : User) (rows : list Account)
  : result (option Account) * list Account :=
  let taken :=
    match UserUpdate.email user_update with
    | Some e =>
        if decide (e ≠ email current_user) then UserRepository.email_exists rows e
        else Return false
    | None => Return false
    end in
  match taken with
  | Raise e => (Raise e, rows)
  | Return true =>
      (Raise (HTTPException status_HTTP_400_BAD_REQUEST "Email already registered" None), rows)
  | Return false => update_by_id rows (id current_user) (update_data user_update salt)
  end.

End UpdateEndpoint.

(** ** The session provider's convenience methods *)

Section SessionMethods.
Context {L : Library}.

(** [LoginPasswordProvider.create_session]. *)
Definition create_session (self : LoginPasswordProvider.t) (user_id : Z)
    (session_id : string) (now : Z) (h : heap) : option (result string * heap) :=
  let '(data, h1) := new_dict [("sub", VStr (PyStr.of_Z user_id))] h in
  LoginPasswordProvider.create_access_token self data None session_id now h1.

End SessionMethods.

(** ** A test double of password hashing *)

Module SecurityDouble.

Definition hash (salt password : string) : string := salt +:+ "$" +:+ password.

Definition verify (plain hashed : string) : bool :=
  match PyStr.cut_first "$" hashed with
  | Some (_, stored) => String.eqb stored plain
  | None => false
  end.

#[local] Instance security : Security := {|
  hash_password := hash;
  verify_password := verify
|}.

Definition account (n : Z) (mail password : string) (active : bool) : Account := {|
  user := {| id := n; email := mail; full_name := None;
             is_active := active; is_superuser := false |};
  hashed_password := hash "na" password
|}.

End SecurityDouble.

(** ** Vocabulary of the statements about the endpoints *)

Section EndpointVocabulary.
Context {L : Library}.




(** The e-mail addresses of the stored rows. *)
Definition stored_emails (rows : list Account) : list string :=
  map (λ a, email (user a)) rows.

(** No two rows share an e-mail address. *)
Definition emails_distinct (rows : list Account) : Prop := NoDup (stored_emails rows).

End EndpointVocabulary.

(** Accounts and requests for the test doubles. *)
Module ConcreteApp.

Definition alice : Account := SecurityDouble.account 7 "alice@example.org" "pw" true.
Definition bob : Account := SecurityDouble.account 8 "bob@example.org" "pw" false.
Definition table : list Account := [alice; bob].

Definition alice_typo : LoginRequest.t :=
  {| LoginRequest.email := "alice@example.org"; LoginRequest.password := "pv" |}.
Definition bob_login : LoginRequest.t :=
  {| LoginRequest.email := "bob@example.org"; LoginRequest.password := "pw" |}.
Definition promote_me : UserUpdate.t :=
  {| UserUpdate.email := None; UserUpdate.password := None; UserUpdate.full_name := None;
     UserUpdate.is_active := None; UserUpdate.is_superuser := Some true |}.
Definition take_bob_address : UserUpdate.t :=
  {| UserUpdate.email := Some "bob@example.org"; UserUpdate.password := None;
     UserUpdate.full_name := None; UserUpdate.is_active := None;
     UserUpdate.is_superuser := None |}.
Definition carol_signup : UserCreate.t :=
  {| UserCreate.email := "carol@example.org"; UserCreate.full_name := None;
     UserCreate.is_active := true; UserCreate.is_superuser := true;
     UserCreate.password := "pw" |}.

End ConcreteApp.

(** A bearer library whose tokens all decode to claims without a subject. *)
Definition subjectless_library : Library := {|
  jwt_encode := TestDouble.encode;
  jwt_decode := fun _ _ _ _ => Return [("exp", VInt 1800)];
  signer_sign := TestDouble.sign;
  signer_unsign := TestDouble.unsign;
  repr_of := fun _ => "<object>";
  bind_integer := TestDouble.bind;
  create_async_engine := TestDouble.engine;
  logging_set_level := TestDouble.set_level
|}.

(** * Properties *)

(** ** The model on small inputs *)

Example split_ws_bearer :
  PyStr.split_ws "  Bearer   abc.def " = ["Bearer"; "abc.def"].
Proof. reflexivity. Qed.

Example split1_first_only :
  PyStr.split1 ":" "sid:7:8" = ["sid"; "7:8"].
Proof. reflexivity. Qed.

Example lower_bearer : PyStr.lower "BeArEr" = "bearer".
Proof. reflexivity. Qed.

Example of_Z_examples :
  PyStr.of_Z 42 = "42" /\ PyStr.of_Z 0 = "0" /\ PyStr.of_Z (-7) = "-7".
Proof. repeat split; reflexivity. Qed.

Example int_examples :
  PyInt.of_str "42" = Some 42 /\ PyInt.of_str " -007 " = Some (-7)
  /\ PyInt.of_str "1_000" = Some 1000 /\ PyInt.of_str "" = None
  /\ PyInt.of_str "abc" = None /\ PyInt.of_str "4 2" = None
  /\ PyInt.of_str "1__0" = None /\ PyInt.of_str "+" = None.
Proof. repeat split; reflexivity. Qed.

(** The separator FS is white space for [str.split] and not for [int()];
    NBSP is white space for both. *)
Example int_white_space :
  PyStr.isspace (ascii_of_N 28) = true
  ∧ PyInt.of_str (String (ascii_of_N 28) "7") = None
  ∧ PyInt.of_str (String (ascii_of_N 160) "7") = Some 7
  ∧ PyInt.of_str (String (ascii_of_N 9) "7" +:+ String (ascii_of_N 133) "") = Some 7.
Proof. repeat split; reflexivity. Qed.

Example double_driver_range :
  TestDouble.bind 9223372036854775807 = Return tt
  ∧ TestDouble.bind 9223372036854775808 = Raise DBAPIError.
Proof. split; reflexivity. Qed.

Example double_startup :
  app_startup (L := TestDouble.library) Concrete.jwt_settings
  = Return ["Starting FastAPI Boilerplate v1.0.0"; "Database: postgresql";
            "Authentication: jwt"]
  ∧ setup_logging (L := TestDouble.library) Concrete.jwt_settings = Return JsonFormatter.
Proof. split; vm_compute; reflexivity. Qed.

Example double_signer_round_trip :
  TestDouble.unsign "k2" (TestDouble.sign "k2" "sid:7" 5000000) 3600 9000000 = Return "sid:7".
Proof. vm_compute. reflexivity. Qed.

Example double_signer_expired :
  TestDouble.unsign "k2" (TestDouble.sign "k2" "sid:7" 0) 3600 3601000000 = Raise SignatureExpired.
Proof. vm_compute. reflexivity. Qed.

Example double_jwt_round_trip :
  TestDouble.decode "42.1800.k1" "k1" ["HS256"] 0 = Return [("sub", VStr "42"); ("exp", VInt 1800)].
Proof. vm_compute. reflexivity. Qed.

Example latin1_characters :
  PyStr.isspace (ascii_of_N 160) = true
  ∧ PyStr.lower_char (ascii_of_N 192) = ascii_of_N 224
  ∧ PyStr.lower_char (ascii_of_N 215) = ascii_of_N 215.
Proof. repeat split; reflexivity. Qed.

Example request_without_header :
  get_current_user (L := TestDouble.library) Concrete.jwt_settings None [] AsJWTProvider 0
  = Raise (unauthorized "Not authenticated").
Proof. reflexivity. Qed.

Example request_with_basic_scheme :
  get_current_user (L := TestDouble.library) Concrete.jwt_settings
    (Some "Basic abc123") [] AsJWTProvider 0
  = Raise (unauthorized "Invalid authentication scheme").
Proof. vm_compute. reflexivity. Qed.

Example request_with_three_words :
  get_current_user (L := TestDouble.library) Concrete.jwt_settings
    (Some "Bearer abc 123") [] AsJWTProvider 0
  = Raise (unauthorized "Invalid authorization header").
Proof. vm_compute. reflexivity. Qed.

Example request_with_expired_token :
  get_current_user (L := TestDouble.library) Concrete.jwt_settings
    (Some "bearer 7.1800.k1") [TestDouble.user 7 true] AsJWTProvider 1800000000
  = Raise (unauthorized "Token has expired").
Proof. vm_compute. reflexivity. Qed.

Example request_of_active_principal :
  resolve_current_active_user (L := TestDouble.library) Concrete.jwt_settings
    (Some "bearer 7.1800.k1") [TestDouble.user 8 true; TestDouble.user 7 true] 1799999999
  = Return (TestDouble.user 7 true).
Proof. vm_compute. reflexivity. Qed.

(** ** Dictionaries and the store *)




(** ** Splitting at the first separator *)

Lemma cut_first_app (sep : ascii) (a b : string) :
  PyStr.occurs sep a = false →
  PyStr.cut_first sep (a +:+ String sep b) = Some (a, b).
Proof.
  induction a as [|c a IH]; simpl; intros H.
  - by rewrite Ascii.eqb_refl.
  - apply orb_false_iff in H as [Hc Ha].
    rewrite Hc, (IH Ha). done.
Qed.

Lemma url_safe_no_colon (s : string) :
  url_safe s = true → PyStr.occurs ":" s = false.
Proof.
  induction s as [|c s IH]; simpl; [done|].
  intros H. apply andb_true_iff in H as [Hc Hs].
  rewrite (IH Hs), orb_false_r.
  destruct (Ascii.eqb c ":") eqn:E; [|done].
  apply Ascii.eqb_eq in E. subst c. vm_compute in Hc. discriminate.
Qed.

Lemma split1_session (session_id sub : string) :
  url_safe session_id = true →
  PyStr.split1 ":" (session_id +:+ ":" +:+ sub) = [session_id; sub].
Proof.
  intros H. unfold PyStr.split1.
  change (session_id +:+ ":" +:+ sub) with (session_id +:+ String ":" sub).
  by rewrite cut_first_app; [|apply url_safe_no_colon].
Qed.

(** ** The bearer provider's issue operations *)

Section BearerIssue.
Context {L : Library}.



End BearerIssue.

(** ** Round trips *)

Section RoundTrip.
Context {L : Library}.

Lemma session_issue_verify (self : LoginPasswordProvider.t) (data : loc) (d : pydict)
    (expires_delta : option Z) (session_id : string) (now now' : Z) (h : heap) :
  h !! data = Some d →
  url_safe session_id = true →
  0 ≤ seconds now' - seconds now ≤ LoginPasswordProvider.max_age self →
  signer_round_trip (LoginPasswordProvider.signer self) (session_text session_id d)
    (LoginPasswordProvider.max_age self) now now' →
  ∃ token,
    LoginPasswordProvider.create_access_token self data expires_delta session_id now h
      = Some (Return token, h)
    ∧ LoginPasswordProvider.verify_token self token now'
      = Return (Some [("sub", VStr (py_str repr_of (default (VStr "") (Dict.get "sub" d))));
                      ("session_id", VStr session_id)]).
Proof.
  intros Hd Hsafe Hage Hlib. eexists. split.
  - unfold LoginPasswordProvider.create_access_token. rewrite Hd. reflexivity.
  - unfold LoginPasswordProvider.verify_token.
    fold (session_text session_id d). rewrite (Hlib Hage). simpl.
    unfold session_text. rewrite (split1_session _ _ Hsafe). reflexivity.
Qed.

(** C6. A session token issued for the subject [sub] (in particular ["7"])
    with the drawn identifier [session_id], verified within its maximum
    age, yields exactly [{"sub": sub, "session_id": session_id}]: the
    payload is split at its first colon, which is the one after the
    URL-safe identifier, whatever [sub] contains. *)
Theorem C6_session_separator_stability (self : LoginPasswordProvider.t) (data : loc)
    (d : pydict) (sub session_id : string) (expires_delta : option Z)
    (now now' : Z) (h : heap) :
  h !! data = Some d →
  Dict.get "sub" d = Some (VStr sub) →
  url_safe session_id = true →
  0 ≤ seconds now' - seconds now ≤ LoginPasswordProvider.max_age self →
  signer_round_trip (LoginPasswordProvider.signer self) (session_id +:+ ":" +:+ sub)
    (LoginPasswordProvider.max_age self) now now' →
  ∃ token,
    LoginPasswordProvider.create_access_token self data expires_delta session_id now h
      = Some (Return token, h)
    ∧ LoginPasswordProvider.verify_token self token now'
      = Return (Some [("sub", VStr sub); ("session_id", VStr session_id)]).
Proof.
  intros Hd Hsub Hsafe Hage Hlib.
  destruct (session_issue_verify self data d expires_delta session_id now now' h)
    as (token & Hissue & Hverify); try done.
  - unfold session_text. rewrite Hsub. exact Hlib.
  - exists token. split; [done|]. rewrite Hverify, Hsub. reflexivity.
Qed.


End RoundTrip.

(** ** The resolution pipeline *)

Section Pipeline.
Context {L : Library}.

Lemma header_accepted (s : Settings) (authorization : option string) (db : database)
    (p : BaseAuthProvider) (now : Z) (token : string) :
  carries_bearer authorization token →
  get_current_user s authorization db p now = after_header s db p now token.
Proof.
  intros (a & scheme & -> & Hsplit & Hlower).
  unfold get_current_user, after_header. simpl.
  destruct a as [|c a]; [discriminate Hsplit|]. simpl PyStr.is_empty. cbv iota.
  rewrite Hsplit. simpl. rewrite Hlower. reflexivity.
Qed.

Lemma verify_token_outcome (p : BaseAuthProvider) (s : Settings) (token : string) (now : Z) :
  (∃ d, verify_token p s token now = Return (Some d))
  ∨ (∃ e, verify_token p s token now = Raise e ∧ may_escape e).
Proof.
  destruct p as [|self]; simpl.
  - unfold JWTProvider.verify_token.
    destruct (jwt_decode token (SECRET_KEY s) [ALGORITHM s] now) as [d|[]]; simpl;
      eauto; right; eexists; (split; [reflexivity|done]).
  - unfold LoginPasswordProvider.verify_token.
    destruct (signer_unsign _ token _ now) as [unsigned|[]]; simpl;
      try (right; eexists; (split; [reflexivity|done])).
    unfold PyStr.split1. destruct (PyStr.cut_first ":" unsigned) as [[a b]|]; simpl.
    + left. eauto.
    + right. eexists. split; [reflexivity|done].
Qed.

(** The repository raises only when the driver refuses the identifier or
    several rows share it. *)
Lemma get_by_id_raises (db : database) (n : Z) (e : exn) :
  get_by_id db n = Raise e → e = MultipleResultsFound ∨ ∃ d, e = DriverError d.
Proof.
  unfold get_by_id, scalar_one_or_none.
  destruct (bind_integer n) as [[]|d]; simpl; [|intros [= <-]; eauto].
  destruct (filter _ db) as [|u [|u' rows]]; intros [= <-]. by left.
Qed.

(** What the conversion and look-up of a subject [v] can raise. *)
Lemma subject_lookup_raises (db : database) (v : value) (e : exn) :
  (n ← PyInt.of_value v;
   user ← get_by_id db n;
   match user with
   | None => Raise (unauthorized "User not found")
   | Some u => Return u
   end) = Raise e →
  e = unauthorized "User not found" ∨ e = MultipleResultsFound
  ∨ (∃ msg, e = ValueError msg) ∨ (∃ msg, e = TypeError msg)
  ∨ (∃ d, e = DriverError d).
Proof.
  destruct (PyInt.of_value v) as [n|e'] eqn:Hint; simpl.
  - destruct (get_by_id db n) as [[u|]|e'] eqn:Hdb; simpl; intros [= <-]; eauto.
    apply get_by_id_raises in Hdb as [->|[d ->]]; eauto 6.
  - intros [= <-]. destruct v as [|b|n|x|us|items|entries]; simpl in Hint;
      try (injection Hint as <-; eauto 10); try discriminate.
    destruct (PyInt.of_str x); [discriminate|]. injection Hint as <-. eauto 10.
Qed.

Ltac raised := let H := fresh in intros H; injection H as <-; done.

Lemma after_header_escape (s : Settings) (db : database) (p : BaseAuthProvider)
    (now : Z) (token : string) (e : exn) :
  after_header s db p now token = Raise e → may_escape e.
Proof.
  unfold after_header.
  destruct (verify_token_outcome p s token now) as [(d & ->)|(e' & -> & He')]; simpl.
  - destruct (Dict.get "sub" d) as [v|]; [|raised].
    assert (Hv : v = VNone ∨ v ≠ VNone) by (destruct v; eauto).
    destruct Hv as [->|Hv]; [raised|].
    intros H. assert (Hraise : (n ← PyInt.of_value v;
                                user ← get_by_id db n;
                                match user with
                                | None => Raise (unauthorized "User not found")
                                | Some u => Return u
                                end) = Raise e) by (by destruct v).
    by destruct (subject_lookup_raises _ _ _ Hraise)
      as [->|[->|[[msg ->]|[[msg ->]|[d' ->]]]]].
  - intros [= <-]. exact He'.
Qed.

Lemma get_current_user_escape (s : Settings) (authorization : option string)
    (db : database) (p : BaseAuthProvider) (now : Z) (e : exn) :
  get_current_user s authorization db p now = Raise e → may_escape e.
Proof.
  unfold get_current_user.
  destruct (falsy authorization); [intros [= <-]; done|].
  destruct (PyStr.split_ws (text_of authorization)) as [|scheme [|token [|x r]]]; simpl;
    try (intros [= <-]; done).
  destruct (String.eqb (PyStr.lower scheme) "bearer"); simpl; [|intros [= <-]; done].
  apply after_header_escape.
Qed.

End Pipeline.

Section Resolution.
Context {L : Library}.

(** A subject that is absent, or present with the value [None], is
    rejected as unauthenticated. *)
Lemma absent_subject_rejected (s : Settings) (authorization : option string)
    (token : string) (db : database) (p : BaseAuthProvider) (now : Z) (payload : pydict) :
  carries_bearer authorization token →
  verify_token p s token now = Return (Some payload) →
  Dict.get "sub" payload = None ∨ Dict.get "sub" payload = Some VNone →
  get_current_user s authorization db p now = Raise (unauthorized "Invalid token payload").
Proof.
  intros Hhdr Hverify Hsub. rewrite (header_accepted _ _ _ _ _ _ Hhdr).
  unfold after_header. rewrite Hverify. simpl. by destruct Hsub as [-> | ->].
Qed.

(** C1. When the verified claims carry a ["sub"] that is text which
    [int()] does not accept, [get_current_user] does not reject the
    request as unauthenticated: the ValueError of [int(user_id)] leaves
    the function, and the HTTP boundary answers with status 500. *)
Theorem C1_non_numeric_subject_raises_ValueError (s : Settings)
    (authorization : option string) (token : string) (db : database)
    (p : BaseAuthProvider) (now : Z) (payload : pydict) (x : string) :
  carries_bearer authorization token →
  verify_token p s token now = Return (Some payload) →
  Dict.get "sub" payload = Some (VStr x) →
  PyInt.of_str x = None →
  get_current_user s authorization db p now
    = Raise (ValueError "invalid literal for int() with base 10")
  ∧ status (exception_response (ValueError "invalid literal for int() with base 10"))
    = status_HTTP_500_INTERNAL_SERVER_ERROR.
Proof.
  intros Hhdr Hverify Hsub Hint. split; [|reflexivity].
  rewrite (header_accepted _ _ _ _ _ _ Hhdr).
  unfold after_header. rewrite Hverify. simpl. rewrite Hsub. simpl.
  rewrite Hint. reflexivity.
Qed.

(** C4. Under the session provider, a token that the signer refuses
    (expired, badly signed or undecodable) is rejected with status 401 and
    no headers at all: the response carries no [WWW-Authenticate]. *)
Theorem C4_session_rejection_without_hint (s : Settings)
    (authorization : option string) (token : string) (db : database)
    (self : LoginPasswordProvider.t) (now : Z) (e : signer_exn) :
  carries_bearer authorization token →
  signer_unsign (LoginPasswordProvider.signer self) token
    (LoginPasswordProvider.max_age self) now = Raise e →
  ∃ reason,
    get_current_user s authorization db (AsLoginPasswordProvider self) now
      = Raise (HTTPException status_HTTP_401_UNAUTHORIZED reason None)
    ∧ response_headers
        (exception_response (HTTPException status_HTTP_401_UNAUTHORIZED reason None))
      = None.
Proof.
  intros Hhdr Hunsign. rewrite (header_accepted _ _ _ _ _ _ Hhdr).
  unfold after_header. simpl. unfold LoginPasswordProvider.verify_token.
  rewrite Hunsign. destruct e; simpl; eexists; (split; reflexivity).
Qed.

(** Every rejection that [get_current_user] raises itself, and every one
    the bearer provider raises, does carry the hint. *)
Lemma bearer_rejections_carry_hint (s : Settings) (authorization : option string)
    (db : database) (now : Z) (code : Z) (reason : string)
    (hs : option (list (string * string))) :
  get_current_user s authorization db AsJWTProvider now = Raise (HTTPException code reason hs) →
  code = status_HTTP_401_UNAUTHORIZED ∧ hs = bearer_hint.
Proof.
  unfold get_current_user.
  destruct (falsy authorization); [by intros [= <- <- <-]|].
  destruct (PyStr.split_ws (text_of authorization)) as [|scheme [|token [|x r]]]; simpl;
    try (by intros [= <- <- <-]).
  destruct (String.eqb (PyStr.lower scheme) "bearer"); simpl; [|by intros [= <- <- <-]].
  unfold JWTProvider.verify_token.
  destruct (jwt_decode token (SECRET_KEY s) [ALGORITHM s] now) as [d|[]]; simpl;
    try (by intros [= <- <- <-]); try discriminate.
  destruct (Dict.get "sub" d) as [v|]; [|by intros [= <- <- <-]].
  assert (Hv : v = VNone ∨ v ≠ VNone) by (destruct v; eauto).
  destruct Hv as [->|Hv]; [by intros [= <- <- <-]|].
  intros H. assert (Hraise : (n ← PyInt.of_value v;
                              user ← get_by_id db n;
                              match user with
                              | None => Raise (unauthorized "User not found")
                              | Some u => Return u
                              end) = Raise (HTTPException code reason hs)) by (by destruct v).
  destruct (subject_lookup_raises _ _ _ Hraise) as [Hu|[?|[[msg ?]|[[msg ?]|[d' ?]]]]];
    try discriminate.
  by injection Hu as -> -> ->.
Qed.

(** The repository finds nothing when the driver binds the identifier and
    no row has it. *)
Lemma get_by_id_unknown (db : database) (n : Z) :
  bind_integer n = Return tt →
  (∀ u, u ∈ db → id u ≠ n) → get_by_id db n = Return None.
Proof.
  intros Hbind Hnone. unfold get_by_id. rewrite Hbind. simpl.
  assert (filter (λ u, id u = n) db = []) as ->; [|reflexivity].
  induction db as [|u db IH]; [reflexivity|].
  rewrite filter_cons_False.
  - apply IH. intros u' Hu'. apply Hnone. by right.
  - apply Hnone. by left.
Qed.

(** A token that the provider's library refuses is rejected with status
    401 and one of the provider's own details. *)
Lemma rejected_token_is_unauthenticated (p : BaseAuthProvider) (s : Settings)
    (authorization : option string) (token : string) (db : database) (now : Z) :
  carries_bearer authorization token →
  library_rejects p s token now →
  ∃ reason hs,
    get_current_user s authorization db p now
    = Raise (HTTPException status_HTTP_401_UNAUTHORIZED reason hs)
    ∧ (reason = "Token has expired" ∨ reason = "Invalid token"
       ∨ reason = "Session has expired" ∨ reason = "Invalid session").
Proof.
  intros Hhdr Hrej. rewrite (header_accepted _ _ _ _ _ _ Hhdr). unfold after_header.
  destruct p as [|self]; simpl in *.
  - unfold JWTProvider.verify_token.
    destruct Hrej as [-> | ->]; simpl; eexists _, _; (split; [reflexivity|eauto]).
  - unfold LoginPasswordProvider.verify_token.
    destruct Hrej as ([] & ->); simpl; eexists _, _; (split; [reflexivity|eauto]).
Qed.

(** C8, in the form the code satisfies.  A request whose token the provider
    accepts and whose subject is a number that the driver binds and that no
    principal of the repository has as identifier is rejected with status
    401, the detail "User not found" and the bearer hint.  A token that
    the provider's library refuses is rejected with status 401 too, and
    with another detail: the status is the same, the body of the response
    is not. *)
Theorem C8_unknown_subject_is_unauthenticated (p : BaseAuthProvider) (s : Settings)
    (authorization : option string) (token : string) (db : database) (now : Z)
    (payload : pydict) (v : value) (n : Z) :
  carries_bearer authorization token →
  verify_token p s token now = Return (Some payload) →
  Dict.get "sub" payload = Some v →
  PyInt.of_value v = Return n →
  bind_integer n = Return tt →
  (∀ u, u ∈ db → id u ≠ n) →
  get_current_user s authorization db p now = Raise (unauthorized "User not found")
  ∧ exception_response (unauthorized "User not found")
    = {| status := 401; detail := "User not found";
         response_headers := Some [("WWW-Authenticate", "Bearer")] |}
  ∧ ∀ authorization' token',
      carries_bearer authorization' token' →
      library_rejects p s token' now →
      ∃ reason hs,
        get_current_user s authorization' db p now = Raise (HTTPException 401 reason hs)
        ∧ reason ≠ "User not found".
Proof.
  intros Hhdr Hverify Hsub Hint Hbind Hnone. split; [|split; [reflexivity|]].
  - rewrite (header_accepted _ _ _ _ _ _ Hhdr).
    unfold after_header. rewrite Hverify. simpl. rewrite Hsub.
    destruct v; try discriminate Hint; rewrite Hint; simpl;
      by rewrite (get_by_id_unknown _ _ Hbind Hnone).
  - intros authorization' token' Hhdr' Hrej.
    destruct (rejected_token_is_unauthenticated p s authorization' token' db now Hhdr' Hrej)
      as (reason & hs & Hraise & Hreason).
    exists reason, hs. split; [exact Hraise|].
    by destruct Hreason as [-> | [-> | [-> | ->]]].
Qed.

End Resolution.

Section Activity.
Context {L : Library}.

Lemma get_auth_provider_raises (s : Settings) (e : exn) :
  get_auth_provider s = Raise e → ∃ msg, e = ValueError msg.
Proof.
  unfold get_auth_provider, LoginPasswordProvider.init.
  repeat case_match; simpl; intros [= <-]; eauto.
Qed.

(** C7. A request whose token the provider accepts and whose numeric
    subject the repository resolves to a principal that is not active ends
    with status 403, not 401.  And whenever the pipeline ends with status
    403, [get_current_user] had returned a principal that is not active:
    no earlier step produces that status. *)
Theorem C7_inactive_principal_is_forbidden (s : Settings) (p : BaseAuthProvider)
    (authorization : option string) (token : string) (db : database) (now : Z)
    (payload : pydict) (v : value) (n : Z) (u : User) :
  get_auth_provider s = Return p →
  carries_bearer authorization token →
  verify_token p s token now = Return (Some payload) →
  Dict.get "sub" payload = Some v →
  PyInt.of_value v = Return n →
  get_by_id db n = Return (Some u) →
  is_active u = false →
  resolve_current_active_user s authorization db now
    = Raise (HTTPException status_HTTP_403_FORBIDDEN "Inactive user" None)
  ∧ ∀ s' authorization' db' now' reason hs,
      resolve_current_active_user s' authorization' db' now'
        = Raise (HTTPException status_HTTP_403_FORBIDDEN reason hs) →
      ∃ u', resolve_current_user s' authorization' db' now' = Return u'
            ∧ is_active u' = false.
Proof.
  intros Hp Hhdr Hverify Hsub Hint Hdb Hactive. split.
  - unfold resolve_current_active_user, resolve_current_user. rewrite Hp. simpl.
    rewrite (header_accepted _ _ _ _ _ _ Hhdr).
    unfold after_header. rewrite Hverify. simpl. rewrite Hsub.
    destruct v; try discriminate Hint; rewrite Hint; simpl; rewrite Hdb; simpl;
      unfold get_current_active_user; by rewrite Hactive.
  - intros s' authorization' db' now' reason hs.
    unfold resolve_current_active_user.
    destruct (resolve_current_user s' authorization' db' now') as [u'|e] eqn:Hres; simpl.
    + unfold get_current_active_user.
      destruct (is_active u') eqn:Hu'; simpl; [discriminate|]. eauto.
    + intros [= ->]. exfalso.
      unfold resolve_current_user in Hres.
      destruct (get_auth_provider s') as [p'|e'] eqn:Hp'; simpl in Hres.
      * apply get_current_user_escape in Hres. simpl in Hres. discriminate.
      * injection Hres as ->. by destruct (get_auth_provider_raises _ _ Hp').
Qed.

(** C9. Each provider's [verify_token] either returns a dictionary or
    raises; it never returns [None].  Hence neither provider's
    [get_current_user] reaches its "Could not validate credentials" branch,
    and the pipeline's [payload.get("sub")] never raises the
    AttributeError of a [None] payload. *)
Theorem C9_verify_token_never_returns_None (s : Settings)
    (self : LoginPasswordProvider.t) (p : BaseAuthProvider) (token : string) (now : Z)
    (authorization : option string) (db : database) :
  JWTProvider.verify_token s token now ≠ Return None
  ∧ LoginPasswordProvider.verify_token self token now ≠ Return None
  ∧ ((∃ d, verify_token p s token now = Return (Some d))
     ∨ (∃ e, verify_token p s token now = Raise e))
  ∧ (∀ hs, JWTProvider.get_current_user s token now
           ≠ Raise (HTTPException status_HTTP_401_UNAUTHORIZED "Could not validate credentials" hs))
  ∧ (∀ hs, LoginPasswordProvider.get_current_user self token now
           ≠ Raise (HTTPException status_HTTP_401_UNAUTHORIZED "Could not validate credentials" hs))
  ∧ (∀ msg, get_current_user s authorization db p now ≠ Raise (AttributeError msg)).
Proof.
  assert (Hj : ∀ r, JWTProvider.verify_token s token now = r →
                    (∃ d, r = Return (Some d))
                    ∨ (∃ reason, r = Raise (HTTPException status_HTTP_401_UNAUTHORIZED reason bearer_hint)
                                 ∧ reason ≠ "Could not validate credentials")
                    ∨ (∃ e, r = Raise (JwtError e))).
  { intros r <-. unfold JWTProvider.verify_token.
    destruct (jwt_decode token (SECRET_KEY s) [ALGORITHM s] now) as [d|[]]; simpl;
      try (right; left; eexists; split; [reflexivity|discriminate]); eauto. }
  assert (Hs : ∀ r, LoginPasswordProvider.verify_token self token now = r →
                    (∃ d, r = Return (Some d))
                    ∨ (∃ reason, r = Raise (HTTPException status_HTTP_401_UNAUTHORIZED reason None)
                                 ∧ reason ≠ "Could not validate credentials")).
  { intros r <-. unfold LoginPasswordProvider.verify_token.
    destruct (signer_unsign _ token _ now) as [unsigned|[]]; simpl;
      try (right; eexists; split; [reflexivity|discriminate]).
    unfold PyStr.split1. destruct (PyStr.cut_first ":" unsigned) as [[a b]|]; simpl;
      try (right; eexists; split; [reflexivity|discriminate]); eauto. }
  split; [|split; [|split; [|split; [|split]]]].
  - intros H. destruct (Hj _ H) as [(d & ?)|[(r & ? & _)|(e & ?)]]; discriminate.
  - intros H. destruct (Hs _ H) as [(d & ?)|(r & ? & _)]; discriminate.
  - destruct (verify_token_outcome p s token now) as [?|(e & ? & _)]; eauto.
  - intros hs. unfold JWTProvider.get_current_user.
    destruct (Hj _ eq_refl) as [(d & ->)|[(r & -> & Hr)|(e & ->)]]; simpl;
      [discriminate| |discriminate].
    intros [= ? ?]. contradiction.
  - intros hs. unfold LoginPasswordProvider.get_current_user.
    destruct (Hs _ eq_refl) as [(d & ->)|(r & -> & Hr)]; simpl; [discriminate|].
    intros [= ? ?]. contradiction.
  - intros msg H. by apply get_current_user_escape in H.
Qed.

End Activity.

(** ** The provider selector and start-up *)

Section Selector.
Context {L : Library}.

(** Start-up does not look at the provider configuration: whether it
    succeeds, and what it raises when it does not, is the same for every
    provider kind and session secret. *)
Lemma app_startup_ignores_provider (s : Settings) (kind : string) (secret : option string) :
  app_startup (with_auth s kind secret)
  = (_ ← app_startup s; Return (lifespan_startup (with_auth s kind secret))).
Proof.
  unfold app_startup, session_module_init, setup_logging.
  change (DATABASE_URL (with_auth s kind secret)) with (DATABASE_URL s).
  change (LOG_LEVEL (with_auth s kind secret)) with (LOG_LEVEL s).
  change (LOG_FORMAT (with_auth s kind secret)) with (LOG_FORMAT s).
  destruct (DATABASE_URL s) as [url|e]; simpl; [|done].
  destruct (create_async_engine url _ 10 20 true) as [[]|e]; simpl; [|done].
  by destruct (logging_set_level (LOG_LEVEL s)) as [[]|e].
Qed.

Lemma app_startup_raises_alike (s : Settings) (kind : string) (secret : option string)
    (e : exn) :
  app_startup (with_auth s kind secret) = Raise e ↔ app_startup s = Raise e.
Proof.
  rewrite app_startup_ignores_provider.
  destruct (app_startup s) as [logs|e']; simpl; split; congruence.
Qed.

(** C2, in the form the code satisfies. [get_auth_provider] is a function of the
    configuration: ["jwt"] gives the bearer provider, ["login_password"]
    the session provider built from the session secret and lifetime, and
    it depends on nothing else.  It is called when a request's
    dependencies are resolved: with any other provider kind each request
    ends with the ValueError of the selector, which is not an
    [HTTPException] and is answered with status 500, while start-up raises
    exactly what it raises with any other provider kind and session
    secret, ["jwt"] included. *)
Theorem C2_selector_runs_per_request (s : Settings) :
  (AUTH_TYPE s = "jwt" → get_auth_provider s = Return AsJWTProvider)
  ∧ (AUTH_TYPE s = "login_password" →
     get_auth_provider s
     = (self ← LoginPasswordProvider.init s; Return (AsLoginPasswordProvider self)))
  ∧ (∀ s', AUTH_TYPE s' = AUTH_TYPE s →
           SESSION_SECRET_KEY s' = SESSION_SECRET_KEY s →
           SESSION_EXPIRE_MINUTES s' = SESSION_EXPIRE_MINUTES s →
           get_auth_provider s' = get_auth_provider s)
  ∧ (AUTH_TYPE s ≠ "jwt" → AUTH_TYPE s ≠ "login_password" →
     get_auth_provider s = Raise (unsupported s)
     ∧ (∀ authorization db now,
          resolve_current_user s authorization db now = Raise (unsupported s))
     ∧ status (exception_response (unsupported s)) = status_HTTP_500_INTERNAL_SERVER_ERROR
     ∧ (∀ kind secret e,
          app_startup (with_auth s kind secret) = Raise e ↔ app_startup s = Raise e)).
Proof.
  split; [|split; [|split]].
  - intros H. unfold get_auth_provider. by rewrite H.
  - intros H. unfold get_auth_provider. by rewrite H.
  - intros s' Ha Hk Hm. unfold get_auth_provider, LoginPasswordProvider.init.
    by rewrite Ha, Hk, Hm.
  - intros Hj Hl.
    assert (Hsel : get_auth_provider s = Raise (unsupported s)).
    { unfold get_auth_provider.
      destruct (String.eqb (AUTH_TYPE s) "jwt") eqn:E1;
        [by apply String.eqb_eq in E1|].
      destruct (String.eqb (AUTH_TYPE s) "login_password") eqn:E2;
        [by apply String.eqb_eq in E2|]. reflexivity. }
    split; [exact Hsel|]. split; [|split; [reflexivity|]].
    + intros authorization db now. unfold resolve_current_user. by rewrite Hsel.
    + intros kind secret e. apply app_startup_raises_alike.
Qed.

(** C3, in the form the code satisfies. With the session provider kind selected and no
    session secret configured, the constructor raises a ValueError; the
    provider is constructed when a request's dependencies are resolved, so
    each request ends with that error (answered with status 500), while
    start-up raises exactly what it raises with any other provider kind
    and session secret, a configured one included. *)
Theorem C3_missing_secret_raises_per_request (s : Settings) :
  AUTH_TYPE s = "login_password" →
  falsy (SESSION_SECRET_KEY s) = true →
  LoginPasswordProvider.init s = Raise secret_required
  ∧ get_auth_provider s = Raise secret_required
  ∧ (∀ authorization db now,
       resolve_current_user s authorization db now = Raise secret_required)
  ∧ status (exception_response secret_required) = status_HTTP_500_INTERNAL_SERVER_ERROR
  ∧ (∀ kind secret e,
       app_startup (with_auth s kind secret) = Raise e ↔ app_startup s = Raise e).
Proof.
  intros Hkind Hsecret.
  assert (Hinit : LoginPasswordProvider.init s = Raise secret_required).
  { unfold LoginPasswordProvider.init. by rewrite Hsecret. }
  assert (Hsel : get_auth_provider s = Raise secret_required).
  { unfold get_auth_provider. rewrite Hkind. simpl. by rewrite Hinit. }
  split; [exact Hinit|]. split; [exact Hsel|]. split; [|split; [reflexivity|]].
  - intros authorization db now. unfold resolve_current_user. by rewrite Hsel.
  - intros kind secret e. apply app_startup_raises_alike.
Qed.

End Selector.

(** ** The theorems on concrete requests *)

Lemma bearer_header (token : string) :
  PyStr.split_ws ("Bearer " +:+ token) = ["Bearer"; token] →
  carries_bearer (Some ("Bearer " +:+ token)) token.
Proof. intros H. exists ("Bearer " +:+ token), "Bearer". by repeat split. Qed.

(** The session provider, a token issued for claims without ["sub"]: the
    subject comes back as the empty text and [int("")] raises. *)
Lemma C1_witness :
  get_current_user (L := TestDouble.library) Concrete.session_settings
    (Some "Bearer sid:.0.k2") [] (AsLoginPasswordProvider TestDouble.session_provider) 0
    = Raise (ValueError "invalid literal for int() with base 10")
  ∧ status (exception_response (ValueError "invalid literal for int() with base 10"))
    = status_HTTP_500_INTERNAL_SERVER_ERROR.
Proof.
  apply (C1_non_numeric_subject_raises_ValueError (L := TestDouble.library)
           Concrete.session_settings (Some "Bearer sid:.0.k2") "sid:.0.k2" []
           (AsLoginPasswordProvider TestDouble.session_provider) 0
           [("sub", VStr ""); ("session_id", VStr "sid")] "").
  - apply (bearer_header "sid:.0.k2"). reflexivity.
  - vm_compute. reflexivity.
  - reflexivity.
  - reflexivity.
Defined.

(** The session provider and a token it did not sign. *)
Lemma C4_witness :
  ∃ reason,
    get_current_user (L := TestDouble.library) Concrete.session_settings
      (Some "Bearer garbage") [] (AsLoginPasswordProvider TestDouble.session_provider) 0
      = Raise (HTTPException status_HTTP_401_UNAUTHORIZED reason None)
    ∧ response_headers
        (exception_response (HTTPException status_HTTP_401_UNAUTHORIZED reason None))
      = None.
Proof.
  apply (C4_session_rejection_without_hint (L := TestDouble.library)
           Concrete.session_settings (Some "Bearer garbage") "garbage" []
           TestDouble.session_provider 0 BadSignature).
  - apply (bearer_header "garbage"). reflexivity.
  - vm_compute. reflexivity.
Defined.


Lemma C6_witness :
  ∃ token,
    LoginPasswordProvider.create_access_token (L := TestDouble.library)
      TestDouble.session_provider 0%nat None "sid" 5000000
      (TestDouble.store [("sub", VStr "7")])
      = Some (Return token, TestDouble.store [("sub", VStr "7")])
    ∧ LoginPasswordProvider.verify_token (L := TestDouble.library)
        TestDouble.session_provider token 9000000
      = Return (Some [("sub", VStr "7"); ("session_id", VStr "sid")]).
Proof.
  apply (C6_session_separator_stability (L := TestDouble.library)
           TestDouble.session_provider 0%nat [("sub", VStr "7")] "7" "sid" None
           5000000 9000000 (TestDouble.store [("sub", VStr "7")])).
  - apply lookup_singleton_eq.
  - reflexivity.
  - reflexivity.
  - vm_compute. split; discriminate.
  - intros _. vm_compute. reflexivity.
Defined.



(** The bearer provider, a token for subject 7, and a repository whose
    principal 7 is not active. *)
Lemma C7_witness :
  resolve_current_active_user (L := TestDouble.library) Concrete.jwt_settings
    (Some "Bearer 7.1800.k1") [TestDouble.user 7 false] 0
  = Raise (HTTPException status_HTTP_403_FORBIDDEN "Inactive user" None).
Proof.
  apply (C7_inactive_principal_is_forbidden (L := TestDouble.library)
           Concrete.jwt_settings AsJWTProvider (Some "Bearer 7.1800.k1") "7.1800.k1"
           [TestDouble.user 7 false] 0 [("sub", VStr "7"); ("exp", VInt 1800)]
           (VStr "7") 7 (TestDouble.user 7 false)).
  - reflexivity.
  - apply (bearer_header "7.1800.k1"). reflexivity.
  - vm_compute. reflexivity.
  - reflexivity.
  - reflexivity.
  - reflexivity.
  - reflexivity.
Defined.

(** The same token against a repository that holds principal 8 only. *)
Lemma C8_witness :
  get_current_user (L := TestDouble.library) Concrete.jwt_settings
    (Some "Bearer 7.1800.k1") [TestDouble.user 8 true] AsJWTProvider 0
  = Raise (unauthorized "User not found").
Proof.
  apply (C8_unknown_subject_is_unauthenticated (L := TestDouble.library) AsJWTProvider
           Concrete.jwt_settings (Some "Bearer 7.1800.k1") "7.1800.k1"
           [TestDouble.user 8 true] 0 [("sub", VStr "7"); ("exp", VInt 1800)] (VStr "7") 7).
  - apply (bearer_header "7.1800.k1"). reflexivity.
  - vm_compute. reflexivity.
  - reflexivity.
  - reflexivity.
  - reflexivity.
  - intros u Hu. apply list_elem_of_singleton in Hu. subst u. discriminate.
Defined.

(** C8 does not hold as worded.  Against a repository that holds principal
    8 only, the token of the unknown subject 7 and a token the library
    refuses are both answered with status 401, and the two responses
    differ in their body, so the caller can tell them apart.  And the
    numeric subject 9223372036854775808, which no principal has either,
    does not end in a rejection: the driver refuses to bind it, and the
    request is answered with status 500. *)
Lemma C8_counterexample :
  get_current_user (L := TestDouble.library) Concrete.jwt_settings
    (Some "Bearer 7.1800.k1") [TestDouble.user 8 true] AsJWTProvider 0
  = Raise (unauthorized "User not found")
  ∧ get_current_user (L := TestDouble.library) Concrete.jwt_settings
      (Some "Bearer garbage") [TestDouble.user 8 true] AsJWTProvider 0
    = Raise (unauthorized "Invalid token")
  ∧ exception_response (unauthorized "User not found")
    ≠ exception_response (unauthorized "Invalid token")
  ∧ PyInt.of_value (VStr "9223372036854775808") = Return 9223372036854775808
  ∧ get_current_user (L := TestDouble.library) Concrete.jwt_settings
      (Some "Bearer 9223372036854775808.1800.k1") [TestDouble.user 8 true] AsJWTProvider 0
    = Raise (DriverError DBAPIError)
  ∧ status (exception_response (DriverError DBAPIError)) = 500.
Proof.
  repeat split; try (vm_compute; reflexivity). discriminate.
Qed.

(** C2 does not hold as worded: with the provider kind ["oauth2"] start-up raises
    nothing, and the selector's error appears when a request is resolved. *)
Lemma C2_counterexample :
  ¬ (∃ e, app_startup (L := TestDouble.library) Concrete.oauth2_settings = Raise e)
  ∧ app_startup (L := TestDouble.library) Concrete.oauth2_settings
    = Return ["Starting FastAPI Boilerplate v1.0.0"; "Database: postgresql";
              "Authentication: oauth2"]
  ∧ resolve_current_user (L := TestDouble.library) Concrete.oauth2_settings
      (Some "Bearer abc") [] 0
    = Raise (ValueError "Unsupported authentication type: oauth2").
Proof.
  split; [|split; vm_compute; reflexivity]. intros [e He]. vm_compute in He. discriminate.
Qed.

Lemma C2_witness :
  get_auth_provider Concrete.oauth2_settings = Raise (unsupported Concrete.oauth2_settings)
  ∧ ∀ e, app_startup (L := TestDouble.library) (with_auth Concrete.oauth2_settings "jwt" None)
         = Raise e
         ↔ app_startup (L := TestDouble.library) Concrete.oauth2_settings = Raise e.
Proof.
  destruct (C2_selector_runs_per_request (L := TestDouble.library) Concrete.oauth2_settings)
    as (_ & _ & _ & H).
  destruct H as (Hsel & _ & _ & Hstart); [discriminate|discriminate|].
  split; [exact Hsel|]. apply Hstart.
Defined.

(** C3 does not hold as worded: with the session kind and no secret start-up
    raises nothing, and the constructor's error appears when a request is
    resolved. *)
Lemma C3_counterexample :
  ¬ (∃ e, app_startup (L := TestDouble.library) Concrete.keyless_settings = Raise e)
  ∧ app_startup (L := TestDouble.library) Concrete.keyless_settings
    = Return ["Starting FastAPI Boilerplate v1.0.0"; "Database: postgresql";
              "Authentication: login_password"]
  ∧ resolve_current_user (L := TestDouble.library) Concrete.keyless_settings
      (Some "Bearer abc") [] 0
    = Raise (ValueError "SESSION_SECRET_KEY is required for session authentication").
Proof.
  split; [|split; vm_compute; reflexivity]. intros [e He]. vm_compute in He. discriminate.
Qed.

Lemma C3_witness :
  LoginPasswordProvider.init Concrete.keyless_settings = Raise secret_required
  ∧ ∀ e, app_startup (L := TestDouble.library)
           (with_auth Concrete.keyless_settings "login_password" (Some "k2")) = Raise e
         ↔ app_startup (L := TestDouble.library) Concrete.keyless_settings = Raise e.
Proof.
  destruct (C3_missing_secret_raises_per_request (L := TestDouble.library)
              Concrete.keyless_settings) as (Hinit & _ & _ & _ & Hstart);
    [reflexivity|reflexivity|].
  split; [exact Hinit|]. apply Hstart.
Defined.

(** * Properties of the rest of the application *)

(** ** Text *)

Lemma str_app_nil_r (s : string) : s +:+ "" = s.
Proof.
  induction s as [|c s IH]; [done|].
  change (String c (s +:+ "") = String c s). by rewrite IH.
Qed.

Lemma str_app_assoc (a b c : string) : (a +:+ b) +:+ c = a +:+ (b +:+ c).
Proof.
  induction a as [|x a IH]; [done|].
  change (String x ((a +:+ b) +:+ c) = String x (a +:+ (b +:+ c))). by rewrite IH.
Qed.

Lemma has_space_app (a b : string) :
  has_space (a +:+ b) = has_space a || has_space b.
Proof.
  induction a as [|c a IH]; [done|].
  change (PyStr.isspace c || has_space (a +:+ b)
          = PyStr.isspace c || has_space a || has_space b).
  by rewrite IH, orb_assoc.
Qed.

Lemma all_space_split_ws (cur s : string) :
  all_space s = true →
  PyStr.split_ws_from cur s = if PyStr.is_empty cur then [] else [cur].
Proof.
  revert cur. induction s as [|c s IH]; intros cur; simpl; [done|].
  intros [Hc Hs]%andb_true_iff. rewrite Hc.
  destruct (PyStr.is_empty cur); by rewrite (IH "" Hs).
Qed.

Lemma split_ws_skip (a s : string) :
  all_space a = true →
  PyStr.split_ws_from "" (a +:+ s) = PyStr.split_ws_from "" s.
Proof.
  induction a as [|c a IH]; simpl; [done|].
  intros [Hc Ha]%andb_true_iff. rewrite Hc. by apply IH.
Qed.

Lemma split_ws_read (cur w s : string) :
  has_space w = false →
  PyStr.split_ws_from cur (w +:+ s) = PyStr.split_ws_from (cur +:+ w) s.
Proof.
  revert cur. induction w as [|c w IH]; intros cur; simpl.
  - by rewrite str_app_nil_r.
  - intros [Hc Hw]%orb_false_iff. rewrite Hc, (IH _ Hw).
    unfold PyStr.snoc. by rewrite str_app_assoc.
Qed.

Lemma split_ws_break (cur b s : string) :
  cur ≠ "" → b ≠ "" → all_space b = true →
  PyStr.split_ws_from cur (b +:+ s) = cur :: PyStr.split_ws_from "" s.
Proof.
  intros Hcur Hb Hall. destruct b as [|c b]; [done|]. simpl in *.
  apply andb_true_iff in Hall as [Hc Hall]. rewrite Hc.
  destruct cur; [done|]. simpl. by rewrite split_ws_skip.
Qed.

(** The words of [a w1 b w2 c], where [a], [b], [c] are white space and
    [b] is not empty, are [w1] and [w2]. *)
Lemma split_ws_two_words (a w1 b w2 c : string) :
  all_space a = true → all_space b = true → b ≠ "" → all_space c = true →
  is_word w1 → is_word w2 →
  PyStr.split_ws (a +:+ w1 +:+ b +:+ w2 +:+ c) = [w1; w2].
Proof.
  intros Ha Hb Hbne Hc [Hw1 Hs1] [Hw2 Hs2]. unfold PyStr.split_ws.
  rewrite split_ws_skip by done. rewrite split_ws_read by done. simpl.
  rewrite split_ws_break by done. rewrite split_ws_read by done. simpl.
  rewrite all_space_split_ws by done. by destruct w2.
Qed.

(** Every word [split] returns is non-empty and free of white space. *)
Lemma split_ws_from_words (cur s : string) :
  has_space cur = false →
  Forall is_word (PyStr.split_ws_from cur s).
Proof.
  revert cur. induction s as [|c s IH]; intros cur Hcur; simpl.
  - destruct cur; simpl; [constructor|]. by repeat constructor.
  - destruct (PyStr.isspace c) eqn:Hc.
    + destruct cur; simpl; [by apply IH|].
      constructor; [done|by apply IH].
    + apply IH. unfold PyStr.snoc. rewrite has_space_app. simpl.
      by rewrite Hcur, Hc.
Qed.

Lemma isspace_lower_char (c : ascii) :
  PyStr.isspace c = true → PyStr.lower_char c = c.
Proof.
  destruct c as [[] [] [] [] [] [] [] []]; vm_compute; congruence.
Qed.

Lemma has_space_lower (s : string) : has_space (PyStr.lower s) = has_space s.
Proof.
  induction s as [|c s IH]; simpl; [done|]. rewrite IH. f_equal.
  destruct c as [[] [] [] [] [] [] [] []]; reflexivity.
Qed.

Lemma bearer_scheme_is_word (scheme : string) :
  PyStr.lower scheme = "bearer" → is_word scheme.
Proof.
  intros H. split; [by intros ->|].
  by rewrite <- has_space_lower, H.
Qed.

(** ** The header of a request *)

Section Header.
Context {L : Library}.

(** X1. A request without a usable bearer header is rejected with status
    401 and the bearer hint, whatever the provider, the repository and the
    clock are: no header or an empty one is "Not authenticated"; a header
    that is not exactly two words (white space only, one word, three words)
    is "Invalid authorization header"; two words whose first does not
    lower-case to ["bearer"] are "Invalid authentication scheme". *)
Theorem X1_header_rejections (s : Settings) (authorization : option string) :
  (falsy authorization = true →
   ∀ db p now, get_current_user s authorization db p now
               = Raise (unauthorized "Not authenticated"))
  ∧ (falsy authorization = false →
     length (PyStr.split_ws (text_of authorization)) ≠ 2%nat →
     ∀ db p now, get_current_user s authorization db p now
                 = Raise (unauthorized "Invalid authorization header"))
  ∧ (∀ scheme token,
       falsy authorization = false →
       PyStr.split_ws (text_of authorization) = [scheme; token] →
       PyStr.lower scheme ≠ "bearer" →
       ∀ db p now, get_current_user s authorization db p now
                   = Raise (unauthorized "Invalid authentication scheme")).
Proof.
  split; [|split].
  - intros H db p now. unfold get_current_user. by rewrite H.
  - intros H Hlen db p now. unfold get_current_user. rewrite H.
    by destruct (PyStr.split_ws (text_of authorization)) as [|a [|b [|c r]]].
  - intros scheme token H Hsplit Hscheme db p now. unfold get_current_user.
    rewrite H, Hsplit. simpl.
    destruct (String.eqb (PyStr.lower scheme) "bearer") eqn:E; [|done].
    by apply String.eqb_eq in E.
Qed.

(** X2. The token handed to the provider is one word of the header: it is
    not empty and contains no white space, and it is the only token the
    header carries. *)
Theorem X2_token_is_one_word (authorization : option string) (token : string) :
  carries_bearer authorization token →
  is_word token ∧ ∀ token', carries_bearer authorization token' → token' = token.
Proof.
  intros (a & scheme & -> & Hsplit & Hlower). split.
  - assert (Hwords : Forall is_word (PyStr.split_ws a))
      by (by apply split_ws_from_words).
    rewrite Hsplit in Hwords.
    apply Forall_cons_1 in Hwords as [_ Hwords].
    by apply Forall_cons_1 in Hwords as [Htoken _].
  - intros token' (a' & scheme' & [= <-] & Hsplit' & _). congruence.
Qed.

(** X3. The header is read up to the case of the scheme and up to white
    space: a scheme that lower-cases to ["bearer"], a one-word token, and
    any white space before, between (at least one character) and after them
    give the same outcome as ["Bearer <token>"]. *)
Theorem X3_header_spacing_and_case (s : Settings) (a scheme b token c : string)
    (db : database) (p : BaseAuthProvider) (now : Z) :
  all_space a = true → all_space b = true → b ≠ "" → all_space c = true →
  PyStr.lower scheme = "bearer" →
  is_word token →
  carries_bearer (Some (a +:+ scheme +:+ b +:+ token +:+ c)) token
  ∧ get_current_user s (Some (a +:+ scheme +:+ b +:+ token +:+ c)) db p now
    = get_current_user s (Some ("Bearer " +:+ token)) db p now.
Proof.
  intros Ha Hb Hbne Hc Hscheme Htoken.
  assert (H1 : carries_bearer (Some (a +:+ scheme +:+ b +:+ token +:+ c)) token).
  { eexists _, scheme. split; [reflexivity|]. split; [|done].
    apply split_ws_two_words; try done. by apply bearer_scheme_is_word. }
  assert (H2 : carries_bearer (Some ("Bearer " +:+ token)) token).
  { eexists _, "Bearer". split; [reflexivity|]. split; [|done].
    replace ("Bearer " +:+ token) with ("" +:+ "Bearer" +:+ " " +:+ token +:+ "").
    - by apply split_ws_two_words.
    - change ("" +:+ "Bearer" +:+ " " +:+ token +:+ "") with ("Bearer " +:+ (token +:+ "")).
      by rewrite str_app_nil_r. }
  split; [exact H1|].
  by rewrite (header_accepted _ _ _ _ _ _ H1), (header_accepted _ _ _ _ _ _ H2).
Qed.

Lemma get_by_id_found (db : database) (n : Z) (u : User) :
  get_by_id db n = Return (Some u) → filter (λ x, id x = n) db = [u] ∧ id u = n.
Proof.
  unfold get_by_id, scalar_one_or_none.
  destruct (bind_integer n) as [[]|d]; simpl; [|discriminate].
  destruct (filter _ db) as [|x [|y rows]] eqn:Hf; intros [= <-].
  split; [done|].
  assert (Hx : x ∈ filter (λ x, id x = n) db) by (rewrite Hf; by left).
  by apply list_elem_of_filter in Hx as [? _].
Qed.

(** X4. [get_current_user] returns a principal only when the header carried
    a bearer token, the provider verified that token, the claims hold a
    subject that [int()] reads as the principal's identifier, and the
    principal is the one row of the repository with that identifier. *)
Theorem X4_returned_principal_is_verified (s : Settings) (authorization : option string)
    (db : database) (p : BaseAuthProvider) (now : Z) (u : User) :
  get_current_user s authorization db p now = Return u →
  ∃ token payload v,
    carries_bearer authorization token
    ∧ verify_token p s token now = Return (Some payload)
    ∧ Dict.get "sub" payload = Some v
    ∧ PyInt.of_value v = Return (id u)
    ∧ filter (λ x, id x = id u) db = [u].
Proof.
  unfold get_current_user.
  destruct (falsy authorization) eqn:Hf; [discriminate|].
  destruct authorization as [a|]; [|discriminate]. simpl text_of.
  destruct (PyStr.split_ws a) as [|scheme [|token [|x r]]] eqn:Hsplit; simpl;
    try discriminate.
  destruct (String.eqb (PyStr.lower scheme) "bearer") eqn:E; simpl; [|discriminate].
  apply String.eqb_eq in E.
  destruct (verify_token p s token now) as [[payload|]|e] eqn:Hv; simpl; try discriminate.
  destruct (Dict.get "sub" payload) as [v|] eqn:Hsub; [|discriminate].
  intros H. assert (Hlook : (n ← PyInt.of_value v;
                             user ← get_by_id db n;
                             match user with
                             | None => Raise (unauthorized "User not found")
                             | Some u => Return u
                             end) = Return u) by (by destruct v).
  clear H. destruct (PyInt.of_value v) as [n|e] eqn:Hint; simpl in Hlook; [|discriminate].
  destruct (get_by_id db n) as [[u'|]|e] eqn:Hdb; simpl in Hlook; try discriminate.
  injection Hlook as ->. apply get_by_id_found in Hdb as [Hrows <-].
  exists token, payload, v. repeat split; try done.
  by exists a, scheme.
Qed.

End Header.

(** ** Decimal text: [int(str(n))] *)

Lemma rev_onto_twice (s a b : string) :
  PyStr.rev_onto (PyStr.rev_onto s a) b = PyStr.rev_onto a (s +:+ b).
Proof.
  revert a b. induction s as [|c s IH]; intros a b; [done|].
  simpl PyStr.rev_onto at 2. rewrite IH. reflexivity.
Qed.

Lemma rev_rev (s : string) : PyStr.rev (PyStr.rev s) = s.
Proof. unfold PyStr.rev. rewrite rev_onto_twice. simpl. apply str_app_nil_r. Qed.

Lemma has_space_rev_onto (s a : string) :
  has_space (PyStr.rev_onto s a) = has_space s || has_space a.
Proof.
  revert a. induction s as [|c s IH]; intros a; [done|].
  simpl. rewrite IH. simpl. destruct (PyStr.isspace c), (has_space s); by rewrite ?orb_true_r.
Qed.

(** What [int()] skips is white space for [str.isspace] too. *)
Lemma int_space_is_space (c : ascii) : PyInt.isspace c = true → PyStr.isspace c = true.
Proof.
  unfold PyInt.isspace, PyStr.isspace. cbv zeta. generalize (PyStr.code c). intros n.
  destruct (N.leb_spec 9 n), (N.leb_spec n 13), (N.eqb_spec n 32), (N.eqb_spec n 133),
    (N.eqb_spec n 160), (N.leb_spec 28 n), (N.leb_spec n 32); simpl; try done; lia.
Qed.

Lemma lstrip_no_space (s : string) : has_space s = false → PyInt.lstrip s = s.
Proof.
  destruct s as [|c s]; [done|]. simpl. intros [Hc _]%orb_false_iff.
  destruct (PyInt.isspace c) eqn:E; [|done].
  apply int_space_is_space in E. congruence.
Qed.

(** [int()] skips nothing around text without white space. *)
Lemma strip_no_space (s : string) : has_space s = false → PyInt.strip s = s.
Proof.
  intros H. unfold PyInt.strip. rewrite (lstrip_no_space s H).
  rewrite lstrip_no_space; [apply rev_rev|].
  unfold PyStr.rev. rewrite has_space_rev_onto, H. reflexivity.
Qed.

Lemma digits_of_uint (d : Decimal.uint) (acc : Z) (prev : bool) :
  d ≠ Decimal.Nil ∨ prev = true →
  PyInt.digits acc prev (NilEmpty.string_of_uint d) = Some (uint_value acc d).
Proof.
  revert acc prev. induction d as [|d IH|d IH|d IH|d IH|d IH|d IH|d IH|d IH|d IH|d IH];
    intros acc prev Hd;
    [destruct Hd as [?| ->]; done | ..];
    simpl NilEmpty.string_of_uint; simpl PyInt.digits; simpl uint_value;
    apply IH; by right.
Qed.

Lemma uint_value_linear (d : Decimal.uint) (acc : Z) :
  uint_value acc d = acc * 10 ^ Z.of_nat (Decimal.nb_digits d) + uint_value 0 d.
Proof.
  revert acc. induction d as [|d IH|d IH|d IH|d IH|d IH|d IH|d IH|d IH|d IH|d IH];
    intros acc; simpl uint_value; simpl Decimal.nb_digits;
    [simpl; lia | ..];
    rewrite (IH (10 * acc + _)), (IH (10 * 0 + _)), Nat2Z.inj_succ, Z.pow_succ_r by lia;
    lia.
Qed.

Lemma uint_value_nonneg (d : Decimal.uint) (acc : Z) : 0 ≤ acc → 0 ≤ uint_value acc d.
Proof.
  revert acc. induction d as [|d IH|d IH|d IH|d IH|d IH|d IH|d IH|d IH|d IH|d IH];
    intros acc Hacc; simpl; [done | ..]; apply IH; lia.
Qed.

(** A number written without a leading zero is at least the power of ten
    of its other digits. *)
Lemma uint_value_lower (d : Decimal.uint) :
  d ≠ Decimal.Nil → leading_zero d = false →
  10 ^ (Z.of_nat (Decimal.nb_digits d) - 1) ≤ uint_value 0 d.
Proof.
  intros Hnil Hlead.
  destruct d as [|d|d|d|d|d|d|d|d|d|d]; try done;
    simpl uint_value; simpl Decimal.nb_digits;
    rewrite uint_value_linear, Nat2Z.inj_succ;
    replace (Z.succ (Z.of_nat (Decimal.nb_digits d)) - 1)
      with (Z.of_nat (Decimal.nb_digits d)) by lia;
    pose proof (uint_value_nonneg d 0 (Z.le_refl 0));
    assert (0 < 10 ^ Z.of_nat (Decimal.nb_digits d)) by (apply Z.pow_pos_nonneg; lia);
    nia.
Qed.

Lemma uint_value_of_uint_acc (d : Decimal.uint) (acc : positive) :
  Z.pos (Pos.of_uint_acc d acc) = uint_value (Z.pos acc) d.
Proof.
  revert acc. induction d as [|d IH|d IH|d IH|d IH|d IH|d IH|d IH|d IH|d IH|d IH];
    intros acc; simpl; [done | ..]; rewrite IH; f_equal; lia.
Qed.

Lemma uint_value_of_uint (d : Decimal.uint) : Z.of_N (Pos.of_uint d) = uint_value 0 d.
Proof.
  induction d as [|d IH|d IH|d IH|d IH|d IH|d IH|d IH|d IH|d IH|d IH];
    simpl; [done | exact IH | ..]; apply uint_value_of_uint_acc.
Qed.

Lemma uint_value_to_uint (p : positive) : uint_value 0 (Pos.to_uint p) = Z.pos p.
Proof. by rewrite <- uint_value_of_uint, DecimalPos.Unsigned.of_to. Qed.

Lemma nzhead_no_leading_zero (d : Decimal.uint) :
  leading_zero (Decimal.nzhead d) = false.
Proof. induction d; simpl; done. Qed.

Lemma to_uint_no_leading_zero (p : positive) : leading_zero (Pos.to_uint p) = false.
Proof.
  pose proof (DecimalPos.Unsigned.to_of (Pos.to_uint p)) as H.
  rewrite DecimalPos.Unsigned.of_to in H. simpl in H. rewrite H.
  unfold Decimal.unorm.
  pose proof (nzhead_no_leading_zero (Pos.to_uint p)) as Hz.
  destruct (Decimal.nzhead (Pos.to_uint p)) eqn:E; try done.
  exfalso. apply (DecimalPos.Unsigned.to_uint_nonzero p).
  rewrite H. unfold Decimal.unorm. by rewrite E.
Qed.

Lemma count_digits_of_uint (d : Decimal.uint) :
  PyInt.count_digits (NilEmpty.string_of_uint d) = Decimal.nb_digits d.
Proof. induction d; simpl; [done | ..]; by rewrite IHd. Qed.

Lemma has_space_of_uint (d : Decimal.uint) :
  has_space (NilEmpty.string_of_uint d) = false.
Proof. induction d; simpl; done. Qed.

(** The decimal text of a positive number below ten to the 4300 stays
    within the digit limit of [int()]. *)
Lemma nb_digits_bound (p : positive) :
  Z.pos p < 10 ^ 4300 → (Decimal.nb_digits (Pos.to_uint p) ≤ PyInt.int_max_str_digits)%nat.
Proof.
  intros Hp.
  pose proof (uint_value_lower (Pos.to_uint p) (DecimalPos.Unsigned.to_uint_nonnil p)
                (to_uint_no_leading_zero p)) as Hlow.
  rewrite uint_value_to_uint in Hlow.
  unfold PyInt.int_max_str_digits.
  destruct (decide (Decimal.nb_digits (Pos.to_uint p) ≤ 4300)%nat) as [|Hbig]; [done|].
  exfalso. apply Z.lt_nge in Hp. apply Hp. etrans; [|exact Hlow].
  apply Z.pow_le_mono_r; lia.
Qed.

Lemma unsigned_of_pos (p : positive) :
  Z.pos p < 10 ^ 4300 →
  NilZero.string_of_uint (Pos.to_uint p) = NilEmpty.string_of_uint (Pos.to_uint p)
  ∧ PyInt.unsigned (NilEmpty.string_of_uint (Pos.to_uint p)) = Some (Z.pos p).
Proof.
  intros Hp.
  pose proof (DecimalPos.Unsigned.to_uint_nonnil p) as Hnil.
  split; [by destruct (Pos.to_uint p)|].
  pose proof (nb_digits_bound p Hp) as Hcount.
  rewrite <- count_digits_of_uint in Hcount. apply Nat.ltb_ge in Hcount.
  unfold PyInt.unsigned. rewrite Hcount.
  rewrite (digits_of_uint _ _ _ (or_introl Hnil)). by rewrite uint_value_to_uint.
Qed.

Lemma of_str_of_Z (n : Z) :
  Z.abs n < 10 ^ 4300 → PyInt.of_str (PyStr.of_Z n) = Some n.
Proof.
  intros Hn. unfold PyStr.of_Z, PyInt.of_str.
  destruct n as [|p|p]; [reflexivity | |];
    destruct (unsigned_of_pos p Hn) as [Htext Hunsigned];
    simpl Z.to_int; simpl NilZero.string_of_int; rewrite Htext;
    pose proof (has_space_of_uint (Pos.to_uint p)) as Hspace.
  - rewrite (strip_no_space _ Hspace).
    pose proof (DecimalPos.Unsigned.to_uint_nonnil p) as Hnil.
    destruct (Pos.to_uint p); try done; exact Hunsigned.
  - rewrite (strip_no_space (String "-" (NilEmpty.string_of_uint (Pos.to_uint p)))) by done.
    change (option_map Z.opp (PyInt.unsigned (NilEmpty.string_of_uint (Pos.to_uint p)))
            = Some (Z.neg p)).
    by rewrite Hunsigned.
Qed.

(** Identifiers of at most eighteen digits are well within the limit. *)
Lemma below_digit_limit (n : Z) : Z.abs n < 10 ^ 18 → Z.abs n < 10 ^ 4300.
Proof.
  intros Hn. eapply Z.lt_trans; [exact Hn|]. apply Z.pow_lt_mono_r; lia.
Qed.

(** X5. The subject text that [login] issues for an identifier, [str(id)],
    is read back by [int()] in [get_current_user] as the same identifier,
    for every identifier of fewer than 4301 digits. *)
Theorem X5_subject_text_reads_back (n : Z) :
  Z.abs n < 10 ^ 4300 →
  PyInt.of_value (VStr (PyStr.of_Z n)) = Return n.
Proof. intros Hn. simpl. by rewrite of_str_of_Z. Qed.

(** ** The repository *)

Lemma filter_none {A : Type} (P : A → Prop) `{∀ a, Decision (P a)} (rows : list A) :
  (∀ a, a ∈ rows → ¬ P a) → filter P rows = [].
Proof.
  induction rows as [|a rows IH]; intros Hnone; [done|].
  rewrite filter_cons_False by (apply Hnone; by left).
  apply IH. intros b Hb. apply Hnone. by right.
Qed.

Lemma one_or_none_raises {A : Type} (rows : list A) (e : exn) :
  one_or_none rows = Raise e → e = MultipleResultsFound ∧ (2 ≤ length rows)%nat.
Proof. destruct rows as [|a [|b rows]]; intros [= <-]. split; [done|simpl; lia]. Qed.

(** ** Logging in *)

Section Login.
Context {L : Library} {Sec : Security}.

Lemma get_by_email_unknown (rows : list Account) (e : string) :
  (∀ a, a ∈ rows → email (user a) ≠ e) →
  UserRepository.get_by_email rows e = Return None.
Proof.
  intros Hnone. unfold UserRepository.get_by_email. by rewrite filter_none.
Qed.

(** X6. [login] answers an unknown e-mail address and a wrong password for
    a known one with the same exception: status 401, the same detail, no
    headers; the store is left as it was. *)
Theorem X6_login_rejections_identical (s : Settings) (login_data : LoginRequest.t)
    (rows : list Account) (p : BaseAuthProvider) (session_id : string)
    (now now_refresh : Z) (h : heap) :
  (∀ a, a ∈ rows → email (user a) ≠ LoginRequest.email login_data)
  ∨ (∃ account,
       UserRepository.get_by_email rows (LoginRequest.email login_data) = Return (Some account)
       ∧ verify_password (LoginRequest.password login_data) (hashed_password account) = false) →
  login s login_data rows p session_id now now_refresh h
  = Some (Raise (HTTPException status_HTTP_401_UNAUTHORIZED "Incorrect email or password" None), h).
Proof.
  unfold login. intros [Hnone|(account & Hfound & Hwrong)].
  - by rewrite (get_by_email_unknown _ _ Hnone).
  - by rewrite Hfound, Hwrong.
Qed.

(** X7. For an account that is not active, [login] answers 403 "Inactive
    user" when the password is right and the 401 of a failed login when it
    is wrong: the password is checked before the active flag. *)
Theorem X7_inactive_account_login (s : Settings) (login_data : LoginRequest.t)
    (rows : list Account) (account : Account) (p : BaseAuthProvider) (session_id : string)
    (now now_refresh : Z) (h : heap) :
  UserRepository.get_by_email rows (LoginRequest.email login_data) = Return (Some account) →
  is_active (user account) = false →
  login s login_data rows p session_id now now_refresh h
  = Some (Raise (if verify_password (LoginRequest.password login_data) (hashed_password account)
                 then HTTPException status_HTTP_403_FORBIDDEN "Inactive user" None
                 else HTTPException status_HTTP_401_UNAUTHORIZED "Incorrect email or password" None),
          h).
Proof.
  intros Hfound Hinactive. unfold login. rewrite Hfound.
  destruct (verify_password _ _); simpl; [|done]. by rewrite Hinactive.
Qed.







End Login.

(** ** From login to an authenticated request *)

Section LoginThenRequest.
Context {L : Library} {Sec : Security}.







End LoginThenRequest.

(** ** Registration and the repository *)

Section Registration.
Context {L : Library} {Sec : Security}.

(** X11. [BaseRepository.exists] answers through [scalar_one_or_none()]:
    it returns [False] when no row matches the filters and [True] when
    exactly one does, and raises [MultipleResultsFound] as soon as two rows
    match. *)
Theorem X11_exists_raises_on_several_matches (matches : Account → Prop)
    `{∀ a, Decision (matches a)} (rows : list Account) :
  (length (filter matches rows) = 0%nat →
   UserRepository.exists_ matches rows = Return false)
  ∧ (length (filter matches rows) = 1%nat →
     UserRepository.exists_ matches rows = Return true)
  ∧ ((2 ≤ length (filter matches rows))%nat →
     UserRepository.exists_ matches rows = Raise MultipleResultsFound).
Proof.
  unfold UserRepository.exists_.
  destruct (filter matches rows) as [|a [|b r]]; simpl; repeat split; intros; try done; lia.
Qed.

(** With distinct addresses at most one row matches an address. *)
Lemma filter_email_distinct (rows : list Account) (e : string) :
  emails_distinct rows →
  ((e ∉ stored_emails rows) ∧ filter (λ a, email (user a) = e) rows = [])
  ∨ (∃ a, a ∈ rows ∧ email (user a) = e ∧ filter (λ a, email (user a) = e) rows = [a]).
Proof.
  unfold emails_distinct, stored_emails. induction rows as [|a rows IH]; intros Hnd.
  - left. split; [apply not_elem_of_nil|done].
  - simpl in Hnd. apply NoDup_cons in Hnd as [Hnotin Hnd].
    rewrite filter_cons. destruct (decide (email (user a) = e)) as [Heq|Hne].
    + right. exists a. split; [by left|]. split; [done|].
      f_equal. apply filter_none. intros b Hb Hbe. apply Hnotin.
      rewrite Heq, <- Hbe. apply list_elem_of_fmap. by exists b.
    + destruct (IH Hnd) as [[Hout Hf]|(b & Hb & Hbe & Hf)].
      * left. split; [|done]. simpl. by intros [?|?]%elem_of_cons.
      * right. exists b. split; [by right|done].
Qed.

(** X12. On a table whose e-mail addresses are distinct, [register] refuses
    an address that is already stored with status 400 and leaves the table
    as it was; otherwise it appends one row that holds the submitted
    address, name and flags (the caller's [is_active] and [is_superuser]
    included) and the hash of the password, returns its principal, and the
    addresses are still distinct. *)
Theorem X12_register_keeps_emails_distinct (user_in : UserCreate.t) (salt : string)
    (assigned_id : Z) (rows : list Account) :
  emails_distinct rows →
  (UserCreate.email user_in ∈ stored_emails rows →
   register user_in salt assigned_id rows
   = (Raise (HTTPException status_HTTP_400_BAD_REQUEST "Email already registered" None), rows))
  ∧ (UserCreate.email user_in ∉ stored_emails rows →
     let created := {|
       user := {| id := assigned_id;
                  email := UserCreate.email user_in;
                  full_name := UserCreate.full_name user_in;
                  is_active := UserCreate.is_active user_in;
                  is_superuser := UserCreate.is_superuser user_in |};
       hashed_password := hash_password salt (UserCreate.password user_in) |} in
     register user_in salt assigned_id rows = (Return (user created), (rows ++ [created])%list)
     ∧ emails_distinct (rows ++ [created])%list).
Proof.
  intros Hnd.
  destruct (filter_email_distinct rows (UserCreate.email user_in) Hnd)
    as [[Hout Hf]|(b & Hb & Hbe & Hf)].
  - split; [done|]. intros _ created. split.
    + unfold register, UserRepository.email_exists, UserRepository.exists_.
      by rewrite Hf.
    + unfold emails_distinct, stored_emails in *. rewrite map_app.
      apply NoDup_app. split; [done|].
      split; [|apply NoDup_singleton].
      intros e He [->|[]%elem_of_nil]%elem_of_cons. done.
  - split.
    + intros _. unfold register, UserRepository.email_exists, UserRepository.exists_.
      by rewrite Hf.
    + intros Hout. exfalso. apply Hout. rewrite <- Hbe.
      unfold stored_emails. apply list_elem_of_fmap. by exists b.
Qed.

(** X13. [delete_by_id] on an identifier that no row has returns [False]
    and changes nothing; on the identifier of one row it returns [True],
    after which that identifier is not found any more while every other
    identifier is looked up as before. *)
Theorem X13_delete_then_lookup (rows : list Account) (n : Z) :
  (UserRepository.get_by_id rows n = Return None →
   UserRepository.delete_by_id rows n = (Return false, rows))
  ∧ (∀ a, UserRepository.get_by_id rows n = Return (Some a) →
          ∃ rows', UserRepository.delete_by_id rows n = (Return true, rows')
                   ∧ UserRepository.get_by_id rows' n = Return None
                   ∧ ∀ m, m ≠ n → UserRepository.get_by_id rows' m
                                  = UserRepository.get_by_id rows m).
Proof.
  split.
  - intros H. unfold UserRepository.delete_by_id. by rewrite H.
  - intros a H. unfold UserRepository.delete_by_id. rewrite H.
    eexists. split; [reflexivity|]. split.
    + unfold UserRepository.get_by_id. rewrite filter_none; [done|].
      intros b [Hb _]%list_elem_of_filter. done.
    + intros m Hm. unfold UserRepository.get_by_id. f_equal.
      rewrite list_filter_filter. apply list_filter_iff.
      intros b. split; [by intros [? _]|]. intros Hb. split; [done|congruence].
Qed.

End Registration.

Section RegisterThenLogin.
Context {L : Library} {Sec : Security}.



End RegisterThenLogin.

(** ** The users endpoints *)

Section Users.
Context {L : Library}.

(** X15. For a request that [get_current_user] resolves to a principal,
    [GET /me] returns that principal whether or not it is active, while
    [GET /{user_id}] answers 403 when it is not active; for an active
    principal [GET /{user_id}] returns the row with the requested
    identifier, whoever it belongs to, and 404 when there is none. *)
Theorem X15_me_is_not_guarded_by_activity (s : Settings) (authorization : option string)
    (rows : list Account) (now : Z) (u : User) :
  resolve_current_user s authorization (principals rows) now = Return u →
  get_current_user_info s authorization rows now = Return u
  ∧ (is_active u = false →
     ∀ user_id, get_user s authorization rows now user_id
                = Raise (HTTPException status_HTTP_403_FORBIDDEN "Inactive user" None))
  ∧ (is_active u = true →
     ∀ user_id,
       (∀ t, get_by_id (principals rows) user_id = Return (Some t) →
             get_user s authorization rows now user_id = Return t)
       ∧ (get_by_id (principals rows) user_id = Return None →
          get_user s authorization rows now user_id
          = Raise (HTTPException status_HTTP_404_NOT_FOUND "User not found" None))).
Proof.
  intros Hres. split; [exact Hres|]. split.
  - intros Hinactive user_id. unfold get_user, resolve_current_active_user.
    rewrite Hres. simpl. unfold get_current_active_user. by rewrite Hinactive.
  - intros Hactive user_id. unfold get_user, resolve_current_active_user.
    rewrite Hres. simpl. unfold get_current_active_user. rewrite Hactive. simpl.
    split; [intros t Ht|intros Ht]; by rewrite Ht.
Qed.

End Users.

(** ** The database URL and start-up *)

(** X16. [DATABASE_URL] is built exactly when [DB_TYPE] is ["postgresql"],
    ["sqlite"], or ["mysql"] with server, user, password and database all
    set and non-empty; every other configuration raises a ValueError, and
    since the engine is created from the URL when [app.db.session] is
    imported, start-up fails with that ValueError in those configurations.
    (It can fail in others too: the engine and the logging set-up may
    refuse what they are given.) *)
Theorem X16_database_url_and_startup {L : Library} (s : Settings) :
  ((∃ url, DATABASE_URL s = Return url) ↔
   DB_TYPE s = "postgresql" ∨ DB_TYPE s = "sqlite"
   ∨ (DB_TYPE s = "mysql"
      ∧ falsy (MYSQL_SERVER s) = false ∧ falsy (MYSQL_USER s) = false
      ∧ falsy (MYSQL_PASSWORD s) = false ∧ falsy (MYSQL_DB s) = false))
  ∧ (∀ e, DATABASE_URL s = Raise e →
          e = ValueError "MySQL configuration is incomplete"
          ∨ e = ValueError ("Unsupported database type: " +:+ DB_TYPE s))
  ∧ (∀ e, DATABASE_URL s = Raise e → app_startup s = Raise e).
Proof.
  split; [|split].
  - unfold DATABASE_URL.
    destruct (String.eqb (DB_TYPE s) "postgresql") eqn:E1.
    { apply String.eqb_eq in E1. split; eauto. }
    destruct (String.eqb (DB_TYPE s) "mysql") eqn:E2.
    { apply String.eqb_eq in E2.
      destruct (falsy (MYSQL_SERVER s)), (falsy (MYSQL_USER s)),
        (falsy (MYSQL_PASSWORD s)), (falsy (MYSQL_DB s)); simpl;
        (split; [intros [url Hu]; try discriminate; eauto 10
                |intros [H|[H|(_ & ? & ? & ? & ?)]]; try discriminate;
                 try (rewrite E2 in H; discriminate); eauto]). }
    destruct (String.eqb (DB_TYPE s) "sqlite") eqn:E3.
    { apply String.eqb_eq in E3. split; eauto. }
    apply String.eqb_neq in E1, E2, E3.
    split; [intros [url Hu]; discriminate|].
    intros [H|[H|(H & _)]]; contradiction.
  - intros e. unfold DATABASE_URL.
    repeat case_match; intros [= <-]; eauto.
  - intros e H. unfold app_startup, session_module_init. by rewrite H.
Qed.

(** ** The session provider's methods *)

Section Sessions.
Context {L : Library}.

Lemma cut_first_spec (sep : ascii) (s a b : string) :
  PyStr.cut_first sep s = Some (a, b) →
  s = a +:+ String sep b ∧ PyStr.occurs sep a = false.
Proof.
  revert a. induction s as [|c s IH]; intros a; simpl; [done|].
  destruct (Ascii.eqb c sep) eqn:E.
  - intros [= <- <-]. apply Ascii.eqb_eq in E. by subst.
  - destruct (PyStr.cut_first sep s) as [[a' b']|]; [|done].
    intros [= <- <-]. destruct (IH a' eq_refl) as [-> Hocc].
    split; [done|]. simpl. by rewrite E, Hocc.
Qed.

(** X17. [create_session] for a user identifier followed by
    [verify_session] within the maximum age yields exactly
    [{"sub": str(user_id), "session_id": <the identifier drawn>}], whose
    subject [int()] reads back as [user_id]; no object the store held is
    changed. *)
Theorem X17_create_session_then_verify (self : LoginPasswordProvider.t) (user_id : Z)
    (session_id : string) (now now' : Z) (h : heap) :
  Z.abs user_id < 10 ^ 4300 →
  url_safe session_id = true →
  0 ≤ seconds now' - seconds now ≤ LoginPasswordProvider.max_age self →
  signer_round_trip (LoginPasswordProvider.signer self)
    (session_id +:+ ":" +:+ PyStr.of_Z user_id)
    (LoginPasswordProvider.max_age self) now now' →
  ∃ token h',
    create_session self user_id session_id now h = Some (Return token, h')
    ∧ (∀ l d, h !! l = Some d → h' !! l = Some d)
    ∧ LoginPasswordProvider.verify_session self token now'
      = Return (Some [("sub", VStr (PyStr.of_Z user_id)); ("session_id", VStr session_id)])
    ∧ PyInt.of_value (VStr (PyStr.of_Z user_id)) = Return user_id.
Proof.
  intros Hn Hsafe Hage Hlib. unfold create_session, new_dict.
  unfold LoginPasswordProvider.create_access_token. rewrite lookup_insert_eq. simpl.
  eexists _, _. split; [reflexivity|]. split; [|split].
  - intros l d Hl. rewrite lookup_insert_ne; [done|].
    intros <-. apply (is_fresh (dom h)). apply elem_of_dom. eauto.
  - unfold LoginPasswordProvider.verify_session, LoginPasswordProvider.verify_token.
    rewrite (Hlib Hage). simpl. by rewrite (split1_session _ _ Hsafe).
  - simpl. by rewrite of_str_of_Z.
Qed.

(** X18. The session provider returns claims only for a token that the
    signer unsigns, and the claims are the two halves of the unsigned text
    around its first colon: the text is [session_id ":" sub] and
    [session_id] has no colon.  A token whose unsigned text has no colon is
    rejected with status 401, "Invalid session". *)
Theorem X18_session_claims_reassemble (self : LoginPasswordProvider.t) (token : string)
    (now : Z) :
  (∀ claims,
     LoginPasswordProvider.verify_token self token now = Return (Some claims) →
     ∃ session_id sub,
       claims = [("sub", VStr sub); ("session_id", VStr session_id)]
       ∧ signer_unsign (LoginPasswordProvider.signer self) token
           (LoginPasswordProvider.max_age self) now
         = Return (session_id +:+ ":" +:+ sub)
       ∧ PyStr.occurs ":" session_id = false)
  ∧ (∀ text,
       signer_unsign (LoginPasswordProvider.signer self) token
         (LoginPasswordProvider.max_age self) now = Return text →
       PyStr.occurs ":" text = false →
       LoginPasswordProvider.verify_token self token now
       = Raise (HTTPException status_HTTP_401_UNAUTHORIZED "Invalid session" None)).
Proof.
  unfold LoginPasswordProvider.verify_token. split.
  - intros claims.
    destruct (signer_unsign _ token _ now) as [text|[]]; simpl; try discriminate.
    unfold PyStr.split1.
    destruct (PyStr.cut_first ":" text) as [[a b]|] eqn:Hcut; simpl; [|discriminate].
    intros [= <-]. destruct (cut_first_spec _ _ _ _ Hcut) as [-> Hocc].
    by exists a, b.
  - intros text -> Hnone. simpl. unfold PyStr.split1.
    destruct (PyStr.cut_first ":" text) as [[a b]|] eqn:Hcut; simpl; [|done].
    destruct (cut_first_spec _ _ _ _ Hcut) as [-> _].
    exfalso. clear Hcut. induction a as [|c a IH]; simpl in Hnone.
    + done.
    + apply orb_false_iff in Hnone as [_ Hnone]. by apply IH.
Qed.

End Sessions.

(** ** Updating the current user *)

Section Update.
Context {Sec : Security}.

Lemma replace_untouched (rows : list Account) (n : Z) (updated : Account) :
  filter (λ a, id (user a) = n) rows = [] →
  map (λ a, if decide (id (user a) = n) then updated else a) rows = rows.
Proof.
  induction rows as [|a rows IH]; [done|]. rewrite filter_cons. simpl.
  destruct (decide (id (user a) = n)); [done|]. intros H. by rewrite (IH H).
Qed.

Lemma replace_lookup_same (rows : list Account) (n : Z) (updated : Account) :
  id (user updated) = n →
  filter (λ a, id (user a) = n)
    (map (λ a, if decide (id (user a) = n) then updated else a) rows)
  = map (λ _, updated) (filter (λ a, id (user a) = n) rows).
Proof.
  intros Hid. induction rows as [|a rows IH]; [done|]. simpl.
  rewrite !filter_cons. destruct (decide (id (user a) = n)) as [Ha|Ha].
  - rewrite decide_True by done. simpl. by rewrite IH.
  - rewrite decide_False by done. exact IH.
Qed.

Lemma replace_lookup_other (rows : list Account) (n m : Z) (updated : Account) :
  id (user updated) = n → m ≠ n →
  filter (λ a, id (user a) = m)
    (map (λ a, if decide (id (user a) = n) then updated else a) rows)
  = filter (λ a, id (user a) = m) rows.
Proof.
  intros Hid Hm. induction rows as [|a rows IH]; [done|]. simpl.
  rewrite !filter_cons. destruct (decide (id (user a) = n)) as [Ha|Ha].
  - rewrite decide_False by congruence. rewrite decide_False by congruence. exact IH.
  - destruct (decide (id (user a) = m)); by rewrite IH.
Qed.

Lemma found_has_id (rows : list Account) (n : Z) (db_obj : Account) :
  UserRepository.get_by_id rows n = Return (Some db_obj) →
  filter (λ a, id (user a) = n) rows = [db_obj] ∧ id (user db_obj) = n.
Proof.
  unfold UserRepository.get_by_id, one_or_none.
  destruct (filter _ rows) as [|x [|y r]] eqn:Hf; intros [= <-].
  split; [done|].
  assert (Hx : x ∈ filter (λ a, id (user a) = n) rows) by (rewrite Hf; by left).
  by apply list_elem_of_filter in Hx as [? _].
Qed.

Lemma email_exists_unknown (rows : list Account) (e : string) :
  e ∉ stored_emails rows → UserRepository.email_exists rows e = Return false.
Proof.
  intros Hout. unfold UserRepository.email_exists, UserRepository.exists_.
  rewrite filter_none; [done|].
  intros a Ha He. apply Hout. rewrite <- He.
  unfold stored_emails. apply list_elem_of_fmap. by exists a.
Qed.

(** X19. [PATCH /me] assigns every field the request sets to the caller's
    own row, the [is_active] and [is_superuser] flags included, and stores
    the hash of a new password; the row keeps its identifier, is found
    under it afterwards, and every other identifier is looked up as before.
    This holds when the request leaves the address alone, repeats the
    caller's address, or names an address no row holds. *)
Theorem X19_update_applies_submitted_fields (user_update : UserUpdate.t) (salt : string)
    (current_user : User) (rows : list Account) (db_obj : Account) :
  UserRepository.get_by_id rows (id current_user) = Return (Some db_obj) →
  match UserUpdate.email user_update with
  | Some e => e = email current_user ∨ e ∉ stored_emails rows
  | None => True
  end →
  let updated := apply_patch (update_data user_update salt) db_obj in
  ∃ rows',
    update_current_user user_update salt current_user rows = (Return (Some updated), rows')
    ∧ UserRepository.get_by_id rows' (id current_user) = Return (Some updated)
    ∧ (∀ m, m ≠ id current_user →
            UserRepository.get_by_id rows' m = UserRepository.get_by_id rows m)
    ∧ id (user updated) = id current_user
    ∧ is_superuser (user updated)
      = default (is_superuser (user db_obj)) (UserUpdate.is_superuser user_update)
    ∧ is_active (user updated)
      = default (is_active (user db_obj)) (UserUpdate.is_active user_update)
    ∧ hashed_password updated
      = default (hashed_password db_obj) (hash_password salt <$> UserUpdate.password user_update).
Proof.
  intros Hfound Hemail updated.
  destruct (found_has_id _ _ _ Hfound) as [Hrows Hid].
  assert (Hcheck : match UserUpdate.email user_update with
                   | Some e =>
                       if decide (e ≠ email current_user)
                       then UserRepository.email_exists rows e
                       else Return false
                   | None => Return false
                   end = Return false).
  { destruct (UserUpdate.email user_update) as [e|]; [|done].
    destruct (decide (e ≠ email current_user)) as [Hne|]; [|done].
    destruct Hemail as [?|Hout]; [done|]. by apply email_exists_unknown. }
  eexists. split.
  - unfold update_current_user. rewrite Hcheck. unfold update_by_id. rewrite Hfound.
    reflexivity.
  - split; [|split; [|by repeat split]].
    + unfold UserRepository.get_by_id.
      rewrite replace_lookup_same by done. by rewrite Hrows.
    + intros m Hm. unfold UserRepository.get_by_id.
      by rewrite replace_lookup_other.
Qed.

Lemma replace_emails_distinct (rows : list Account) (n : Z) (db_obj updated : Account) :
  emails_distinct rows →
  filter (λ a, id (user a) = n) rows = [db_obj] →
  email (user updated) = email (user db_obj) ∨ email (user updated) ∉ stored_emails rows →
  emails_distinct (map (λ a, if decide (id (user a) = n) then updated else a) rows).
Proof.
  unfold emails_distinct, stored_emails.
  induction rows as [|a rows IH]; intros Hnd Hf Hmail; [done|].
  simpl in Hnd. apply NoDup_cons in Hnd as [Ha Hnd].
  rewrite filter_cons in Hf. simpl.
  destruct (decide (id (user a) = n)) as [Hid|Hid].
  - injection Hf as -> Hrest. rewrite (replace_untouched _ _ _ Hrest).
    apply NoDup_cons. split; [|done].
    destruct Hmail as [->|Hout]; [done|].
    intros Hin. apply Hout. simpl. by right.
  - apply NoDup_cons. split.
    + intros Hin. apply list_elem_of_fmap in Hin as (b & Hb & Hin).
      apply list_elem_of_fmap in Hin as (c & -> & Hc).
      destruct (decide (id (user c) = n)) as [Hcn|Hcn].
      * destruct Hmail as [Hsame|Hout].
        -- apply Ha. rewrite Hb, Hsame.
           assert (Hobj : db_obj ∈ filter (λ a, id (user a) = n) rows)
             by (rewrite Hf; by left).
           apply list_elem_of_filter in Hobj as [_ Hobj].
           apply list_elem_of_fmap. by exists db_obj.
        -- apply Hout. simpl. rewrite <- Hb. by left.
      * apply Ha. rewrite Hb. apply list_elem_of_fmap. by exists c.
    + apply IH; try done.
      destruct Hmail as [?|Hout]; [by left|right].
      intros Hin. apply Hout. simpl. by right.
Qed.

(** X20. On a table whose e-mail addresses are distinct, [PATCH /me] keeps
    them distinct: asking for an address that differs from the caller's and
    is held by some row is refused with status 400 and changes nothing, and
    every update that goes through leaves no two rows with the same
    address. *)
Theorem X20_update_keeps_emails_distinct (user_update : UserUpdate.t) (salt : string)
    (current_user : User) (rows : list Account) (db_obj : Account) :
  emails_distinct rows →
  UserRepository.get_by_id rows (id current_user) = Return (Some db_obj) →
  user db_obj = current_user →
  emails_distinct (snd (update_current_user user_update salt current_user rows))
  ∧ (∀ e, UserUpdate.email user_update = Some e →
          e ≠ email current_user →
          e ∈ stored_emails rows →
          update_current_user user_update salt current_user rows
          = (Raise (HTTPException status_HTTP_400_BAD_REQUEST "Email already registered" None),
             rows)).
Proof.
  intros Hnd Hfound Huser.
  destruct (found_has_id _ _ _ Hfound) as [Hrows Hid].
  assert (Hupdate : ∀ e', e' = email (user db_obj) ∨ e' ∉ stored_emails rows →
            email (user (apply_patch (update_data user_update salt) db_obj)) = e' →
            emails_distinct
              (snd (update_by_id rows (id current_user) (update_data user_update salt)))).
  { intros e' He' Hmail. unfold update_by_id. rewrite Hfound. simpl.
    apply (replace_emails_distinct rows _ db_obj); try done. by rewrite Hmail. }
  unfold update_current_user.
  destruct (UserUpdate.email user_update) as [e|] eqn:Hmail.
  - destruct (decide (e ≠ email current_user)) as [Hne|Heq].
    + destruct (filter_email_distinct rows e Hnd) as [[Hout Hf]|(b & Hb & Hbe & Hf)].
      * rewrite (email_exists_unknown _ _ Hout). split.
        -- apply (Hupdate e); [by right|]. simpl. by rewrite Hmail.
        -- intros e0 [= <-] _ Hin. contradiction.
      * unfold UserRepository.email_exists, UserRepository.exists_. rewrite Hf. simpl.
        split; [done|]. by intros e0 [= <-] _ _.
    + split.
      * apply (Hupdate e); [left|simpl; by rewrite Hmail].
        apply dec_stable in Heq. by rewrite Heq, Huser.
      * intros e0 [= <-] Hne. contradiction.
  - split; [|intros e0 [=]].
    apply (Hupdate (email (user db_obj))); [by left|]. simpl. by rewrite Hmail.
Qed.

End Update.

(** ** More of the repository and of the rejections *)

Section More.
Context {L : Library}.

(** X21. A row created under an identifier that no row has yet is found
    under that identifier afterwards, and every other identifier is looked
    up as before. *)
Theorem X21_create_then_lookup (rows : list Account) (db_obj : Account) :
  (∀ a, a ∈ rows → id (user a) ≠ id (user db_obj)) →
  let rows' := snd (UserRepository.create rows db_obj) in
  UserRepository.get_by_id rows' (id (user db_obj)) = Return (Some db_obj)
  ∧ ∀ m, m ≠ id (user db_obj) →
         UserRepository.get_by_id rows' m = UserRepository.get_by_id rows m.
Proof.
  intros Hfresh rows'. unfold rows', UserRepository.create, UserRepository.get_by_id.
  simpl. split.
  - rewrite filter_app, (filter_none _ rows) by done. simpl.
    by rewrite filter_cons_True.
  - intros m Hm. rewrite filter_app. simpl.
    rewrite filter_cons_False by congruence. by rewrite app_nil_r.
Qed.

(** X22. Under the bearer provider every [HTTPException] that leaves
    [get_current_user] has status 401 and carries the header
    [WWW-Authenticate: Bearer], whichever step raised it. *)
Theorem X22_bearer_rejections_carry_hint (s : Settings) (authorization : option string)
    (db : database) (now : Z) (code : Z) (reason : string)
    (hs : option (list (string * string))) :
  get_current_user s authorization db AsJWTProvider now = Raise (HTTPException code reason hs) →
  code = status_HTTP_401_UNAUTHORIZED ∧ hs = Some [("WWW-Authenticate", "Bearer")].
Proof. apply bearer_rejections_carry_hint. Qed.

(** X23. Claims without a ["sub"], or with a null one, are rejected with
    status 401, "Invalid token payload" and the bearer hint, under either
    provider and whatever the repository holds. *)
Theorem X23_absent_subject_rejected (s : Settings) (authorization : option string)
    (token : string) (db : database) (p : BaseAuthProvider) (now : Z) (payload : pydict) :
  carries_bearer authorization token →
  verify_token p s token now = Return (Some payload) →
  Dict.get "sub" payload = None ∨ Dict.get "sub" payload = Some VNone →
  get_current_user s authorization db p now
  = Raise (HTTPException status_HTTP_401_UNAUTHORIZED "Invalid token payload"
             (Some [("WWW-Authenticate", "Bearer")])).
Proof. apply absent_subject_rejected. Qed.

(** X24. A verified subject that [int()] reads as a number the driver
    refuses to bind ends [get_current_user] with the driver's exception,
    under either provider and whatever the repository holds: the request
    is answered with status 500, not rejected with status 401. *)
Theorem X24_unbound_subject_is_a_server_error (s : Settings)
    (authorization : option string) (token : string) (db : database)
    (p : BaseAuthProvider) (now : Z) (payload : pydict) (v : value) (n : Z)
    (e : driver_exn) :
  carries_bearer authorization token →
  verify_token p s token now = Return (Some payload) →
  Dict.get "sub" payload = Some v →
  PyInt.of_value v = Return n →
  bind_integer n = Raise e →
  get_current_user s authorization db p now = Raise (DriverError e)
  ∧ exception_response (DriverError e)
    = {| status := 500; detail := "Internal server error"; response_headers := None |}.
Proof.
  intros Hhdr Hverify Hsub Hint Hbind. split; [|reflexivity].
  rewrite (header_accepted _ _ _ _ _ _ Hhdr).
  unfold after_header. rewrite Hverify. simpl. rewrite Hsub.
  destruct v; try discriminate Hint; rewrite Hint; simpl;
    unfold get_by_id; by rewrite Hbind.
Qed.

End More.

(** ** The properties on concrete requests *)

Lemma X1_witness :
  get_current_user (L := TestDouble.library) Concrete.jwt_settings (Some "   ") []
    AsJWTProvider 0
  = Raise (unauthorized "Invalid authorization header").
Proof.
  destruct (X1_header_rejections (L := TestDouble.library) Concrete.jwt_settings (Some "   "))
    as (_ & H & _).
  apply H; [reflexivity|]. vm_compute. discriminate.
Defined.

Lemma X2_witness : is_word "7.1800.k1".
Proof.
  apply (X2_token_is_one_word (Some "Bearer 7.1800.k1") "7.1800.k1").
  apply (bearer_header "7.1800.k1"). reflexivity.
Defined.

Lemma X3_witness :
  get_current_user (L := TestDouble.library) Concrete.jwt_settings
    (Some (" " +:+ "BEARER" +:+ "  " +:+ "7.1800.k1" +:+ " ")) [TestDouble.user 7 true]
    AsJWTProvider 0
  = get_current_user (L := TestDouble.library) Concrete.jwt_settings
      (Some ("Bearer " +:+ "7.1800.k1")) [TestDouble.user 7 true] AsJWTProvider 0.
Proof.
  apply (X3_header_spacing_and_case (L := TestDouble.library) Concrete.jwt_settings
           " " "BEARER" "  " "7.1800.k1" " " [TestDouble.user 7 true] AsJWTProvider 0);
    try reflexivity.
  - discriminate.
  - split; [discriminate|reflexivity].
Defined.

Lemma X4_witness :
  ∃ token payload v,
    carries_bearer (Some "bearer 7.1800.k1") token
    ∧ verify_token (L := TestDouble.library) AsJWTProvider Concrete.jwt_settings token 0
      = Return (Some payload)
    ∧ Dict.get "sub" payload = Some v
    ∧ PyInt.of_value v = Return (id (TestDouble.user 7 true))
    ∧ filter (λ x, id x = id (TestDouble.user 7 true))
        [TestDouble.user 8 true; TestDouble.user 7 true]
      = [TestDouble.user 7 true].
Proof.
  apply (X4_returned_principal_is_verified (L := TestDouble.library) Concrete.jwt_settings
           (Some "bearer 7.1800.k1") [TestDouble.user 8 true; TestDouble.user 7 true]
           AsJWTProvider 0 (TestDouble.user 7 true)).
  vm_compute. reflexivity.
Defined.

Lemma X5_witness : PyInt.of_value (VStr (PyStr.of_Z (-1234567890))) = Return (-1234567890).
Proof.
  apply X5_subject_text_reads_back. apply below_digit_limit. vm_compute. reflexivity.
Defined.

Lemma X6_witness :
  login (L := TestDouble.library) (Sec := SecurityDouble.security) Concrete.jwt_settings
    ConcreteApp.alice_typo ConcreteApp.table AsJWTProvider "sid" 0 0 ∅
  = Some (Raise (HTTPException status_HTTP_401_UNAUTHORIZED "Incorrect email or password" None),
          ∅).
Proof.
  apply (X6_login_rejections_identical (L := TestDouble.library)
           (Sec := SecurityDouble.security)).
  right. exists ConcreteApp.alice. split; vm_compute; reflexivity.
Defined.

Lemma X7_witness :
  login (L := TestDouble.library) (Sec := SecurityDouble.security) Concrete.jwt_settings
    ConcreteApp.bob_login ConcreteApp.table AsJWTProvider "sid" 0 0 ∅
  = Some (Raise (HTTPException status_HTTP_403_FORBIDDEN "Inactive user" None), ∅).
Proof.
  apply (X7_inactive_account_login (L := TestDouble.library)
           (Sec := SecurityDouble.security) Concrete.jwt_settings ConcreteApp.bob_login
           ConcreteApp.table ConcreteApp.bob AsJWTProvider "sid" 0 0 ∅).
  - vm_compute. reflexivity.
  - reflexivity.
Defined.





(** Both rows of the table store the same hash, so a filter on the hash
    matches twice. *)
Lemma X11_witness :
  UserRepository.exists_ (λ a, hashed_password a = "na$pw") ConcreteApp.table
  = Raise MultipleResultsFound.
Proof.
  destruct (X11_exists_raises_on_several_matches (λ a, hashed_password a = "na$pw")
              ConcreteApp.table) as (_ & _ & H).
  apply H. vm_compute. lia.
Defined.

Lemma X12_witness :
  register (Sec := SecurityDouble.security) ConcreteApp.carol_signup "na" 9 ConcreteApp.table
  = (Return {| id := 9; email := "carol@example.org"; full_name := None;
               is_active := true; is_superuser := true |},
     (ConcreteApp.table
      ++ [{| user := {| id := 9; email := "carol@example.org"; full_name := None;
                        is_active := true; is_superuser := true |};
             hashed_password := "na$pw" |}])%list).
Proof.
  destruct (X12_register_keeps_emails_distinct (Sec := SecurityDouble.security)
              ConcreteApp.carol_signup "na" 9 ConcreteApp.table) as [_ H].
  - apply (bool_decide_unpack (NoDup (stored_emails ConcreteApp.table))).
    vm_compute. exact I.
  - destruct H as [H _]; [|exact H].
    apply (bool_decide_unpack ("carol@example.org" ∉ stored_emails ConcreteApp.table)).
    vm_compute. exact I.
Defined.

Lemma X13_witness :
  ∃ rows', UserRepository.delete_by_id ConcreteApp.table 7 = (Return true, rows')
           ∧ UserRepository.get_by_id rows' 7 = Return None
           ∧ ∀ m, m ≠ 7 → UserRepository.get_by_id rows' m
                          = UserRepository.get_by_id ConcreteApp.table m.
Proof.
  destruct (X13_delete_then_lookup ConcreteApp.table 7) as [_ H].
  apply (H ConcreteApp.alice). vm_compute. reflexivity.
Defined.


(** Bob is not active: [GET /me] answers, [GET /7] does not. *)
Lemma X15_witness :
  get_current_user_info (L := TestDouble.library) Concrete.jwt_settings
    (Some "Bearer 8.1800.k1") ConcreteApp.table 0 = Return (user ConcreteApp.bob)
  ∧ get_user (L := TestDouble.library) Concrete.jwt_settings
      (Some "Bearer 8.1800.k1") ConcreteApp.table 0 7
    = Raise (HTTPException status_HTTP_403_FORBIDDEN "Inactive user" None).
Proof.
  destruct (X15_me_is_not_guarded_by_activity (L := TestDouble.library) Concrete.jwt_settings
              (Some "Bearer 8.1800.k1") ConcreteApp.table 0 (user ConcreteApp.bob))
    as (Hme & Hinactive & _).
  - vm_compute. reflexivity.
  - split; [exact Hme|]. apply Hinactive. reflexivity.
Defined.

Lemma X16_witness : ∃ url, DATABASE_URL Concrete.jwt_settings = Return url.
Proof.
  destruct (X16_database_url_and_startup (L := TestDouble.library) Concrete.jwt_settings)
    as [[_ H] _].
  apply H. left. reflexivity.
Defined.

Lemma X17_witness :
  ∃ token h',
    create_session (L := TestDouble.library) TestDouble.session_provider 7 "sid" 5000000 ∅
    = Some (Return token, h')
    ∧ (∀ l d, (∅ : heap) !! l = Some d → h' !! l = Some d)
    ∧ LoginPasswordProvider.verify_session (L := TestDouble.library)
        TestDouble.session_provider token 9000000
      = Return (Some [("sub", VStr (PyStr.of_Z 7)); ("session_id", VStr "sid")])
    ∧ PyInt.of_value (VStr (PyStr.of_Z 7)) = Return 7.
Proof.
  apply (X17_create_session_then_verify (L := TestDouble.library)
           TestDouble.session_provider 7 "sid" 5000000 9000000 ∅).
  - apply below_digit_limit. vm_compute. reflexivity.
  - reflexivity.
  - vm_compute. split; discriminate.
  - intros _. vm_compute. reflexivity.
Defined.

Lemma X18_witness :
  ∃ session_id sub,
    [("sub", VStr "7:8"); ("session_id", VStr "sid")]
    = [("sub", VStr sub); ("session_id", VStr session_id)]
    ∧ signer_unsign (Library := TestDouble.library) "k2" "sid:7:8.0.k2" 3600 0
      = Return (session_id +:+ ":" +:+ sub)
    ∧ PyStr.occurs ":" session_id = false.
Proof.
  destruct (X18_session_claims_reassemble (L := TestDouble.library)
              TestDouble.session_provider "sid:7:8.0.k2" 0) as [H _].
  apply (H [("sub", VStr "7:8"); ("session_id", VStr "sid")]).
  vm_compute. reflexivity.
Defined.

(** Alice, who is not a superuser, asks for the flag. *)
Lemma X19_witness :
  ∃ rows',
    update_current_user (Sec := SecurityDouble.security) ConcreteApp.promote_me "na"
      (user ConcreteApp.alice) ConcreteApp.table
    = (Return (Some (apply_patch
                       (update_data (Sec := SecurityDouble.security) ConcreteApp.promote_me "na")
                       ConcreteApp.alice)), rows')
    ∧ is_superuser (user (apply_patch
                            (update_data (Sec := SecurityDouble.security)
                               ConcreteApp.promote_me "na")
                            ConcreteApp.alice)) = true.
Proof.
  destruct (X19_update_applies_submitted_fields (Sec := SecurityDouble.security)
              ConcreteApp.promote_me "na" (user ConcreteApp.alice) ConcreteApp.table
              ConcreteApp.alice) as (rows' & Hupdate & _ & _ & _ & Hsuper & _).
  - vm_compute. reflexivity.
  - exact I.
  - exists rows'. split; [exact Hupdate|exact Hsuper].
Defined.

Lemma X20_witness :
  update_current_user (Sec := SecurityDouble.security) ConcreteApp.take_bob_address "na"
    (user ConcreteApp.alice) ConcreteApp.table
  = (Raise (HTTPException status_HTTP_400_BAD_REQUEST "Email already registered" None),
     ConcreteApp.table).
Proof.
  destruct (X20_update_keeps_emails_distinct (Sec := SecurityDouble.security)
              ConcreteApp.take_bob_address "na" (user ConcreteApp.alice) ConcreteApp.table
              ConcreteApp.alice) as [_ H].
  - apply (bool_decide_unpack (NoDup (stored_emails ConcreteApp.table))).
    vm_compute. exact I.
  - vm_compute. reflexivity.
  - reflexivity.
  - apply (H "bob@example.org"); [reflexivity|discriminate|].
    apply (bool_decide_unpack ("bob@example.org" ∈ stored_emails ConcreteApp.table)).
    vm_compute. exact I.
Defined.

Lemma X21_witness :
  UserRepository.get_by_id
    (snd (UserRepository.create ConcreteApp.table
            (SecurityDouble.account 9 "carol@example.org" "pw" true))) 9
  = Return (Some (SecurityDouble.account 9 "carol@example.org" "pw" true)).
Proof.
  apply (X21_create_then_lookup ConcreteApp.table
           (SecurityDouble.account 9 "carol@example.org" "pw" true)).
  intros a Ha. unfold ConcreteApp.table in Ha.
  apply elem_of_cons in Ha as [->|Ha]; [discriminate|].
  apply list_elem_of_singleton in Ha as ->. discriminate.
Defined.

Lemma X22_witness :
  get_current_user (L := TestDouble.library) Concrete.jwt_settings (Some "Bearer garbage") []
    AsJWTProvider 0
  = Raise (HTTPException 401 "Invalid token" (Some [("WWW-Authenticate", "Bearer")]))
  ∧ 401 = status_HTTP_401_UNAUTHORIZED
  ∧ Some [("WWW-Authenticate", "Bearer")] = Some [("WWW-Authenticate", "Bearer")].
Proof.
  assert (H : get_current_user (L := TestDouble.library) Concrete.jwt_settings
                (Some "Bearer garbage") [] AsJWTProvider 0
              = Raise (HTTPException 401 "Invalid token"
                         (Some [("WWW-Authenticate", "Bearer")])))
    by (vm_compute; reflexivity).
  split; [exact H|].
  exact (X22_bearer_rejections_carry_hint (L := TestDouble.library) Concrete.jwt_settings
           (Some "Bearer garbage") [] 0 401 "Invalid token"
           (Some [("WWW-Authenticate", "Bearer")]) H).
Defined.

(** A library whose tokens decode to claims that hold an expiry only. *)
Lemma X23_witness :
  get_current_user (L := subjectless_library) Concrete.jwt_settings (Some "Bearer anything") []
    AsJWTProvider 0
  = Raise (HTTPException status_HTTP_401_UNAUTHORIZED "Invalid token payload"
             (Some [("WWW-Authenticate", "Bearer")])).
Proof.
  apply (X23_absent_subject_rejected (L := subjectless_library) Concrete.jwt_settings
           (Some "Bearer anything") "anything" [] AsJWTProvider 0 [("exp", VInt 1800)]).
  - apply (bearer_header "anything"). reflexivity.
  - reflexivity.
  - left. reflexivity.
Defined.

(** A token for the subject two to the 63, one more than the double's
    driver binds. *)
Lemma X24_witness :
  get_current_user (L := TestDouble.library) Concrete.jwt_settings
    (Some "Bearer 9223372036854775808.1800.k1") [TestDouble.user 8 true] AsJWTProvider 0
  = Raise (DriverError DBAPIError)
  ∧ exception_response (DriverError DBAPIError)
    = {| status := 500; detail := "Internal server error"; response_headers := None |}.
Proof.
  apply (X24_unbound_subject_is_a_server_error (L := TestDouble.library)
           Concrete.jwt_settings (Some "Bearer 9223372036854775808.1800.k1")
           "9223372036854775808.1800.k1" [TestDouble.user 8 true] AsJWTProvider 0
           [("sub", VStr "9223372036854775808"); ("exp", VInt 1800)]
           (VStr "9223372036854775808") 9223372036854775808 DBAPIError).
  - apply (bearer_header "9223372036854775808.1800.k1"). reflexivity.
  - vm_compute. reflexivity.
  - reflexivity.
  - reflexivity.
  - reflexivity.
Defined.
